(** * GenericTest: the generic NMOS API test engine

    A shallow embedding of [GenericTest.py]: URL resolution against the cache
    of saved entities, response validation (CORS headers, JSON body, schema)
    and the harvest of sub-resource identifiers, with the properties the
    design document states about them.

    Python values are embedded as follows.
    - [str] is [string]; every character the code inspects (the slash, the
      braces, header names, HTTP verbs) is ASCII.
    - A parsed JSON body is a [json] tree; a [dict] keeps its items in
      insertion order.
    - [self.saved_entities] is a [gmap string (list json)].
    - The network is a transition function on an abstract world; the engine
      state records every request handed to it.
    - An exception that escapes a method is the [Raise] branch of [result]. *)

From Stdlib Require Import String Ascii ZArith QArith Lia Bool DecimalString.
From stdpp Require Import gmap strings list fin_maps.

Local Open Scope Z_scope.
Local Open Scope nat_scope.
Local Open Scope stdpp_scope.

(** ** Python string methods used by the engine *)

Module PyStr.

(** [s.rstrip(c)] for a one-character [c]. *)
Fixpoint rstrip (c : ascii) (s : string) : string :=
  match s with
  | EmptyString => EmptyString
  | String a s' =>
      match rstrip c s' with
      | EmptyString => if Ascii.eqb a c then EmptyString else String a EmptyString
      | r => String a r
      end
  end.

(** [s.endswith(c)] for a one-character [c]. *)
Fixpoint endswith (c : ascii) (s : string) : bool :=
  match s with
  | EmptyString => false
  | String a EmptyString => Ascii.eqb a c
  | String _ s' => endswith c s'
  end.

(** [s.split(c)[0]]: the text before the first [c], all of [s] without one. *)
Fixpoint split_head (c : ascii) (s : string) : string :=
  match s with
  | EmptyString => EmptyString
  | String a s' => if Ascii.eqb a c then EmptyString else String a (split_head c s')
  end.

(** [c * n] *)
Fixpoint replicate (n : nat) (c : ascii) : string :=
  match n with
  | O => EmptyString
  | S n' => String c (replicate n' c)
  end.

Definition is_lower (a : ascii) : bool :=
  (97 <=? nat_of_ascii a) && (nat_of_ascii a <=? 122).
Definition is_upper (a : ascii) : bool :=
  (65 <=? nat_of_ascii a) && (nat_of_ascii a <=? 90).

Definition upper_char (a : ascii) : ascii :=
  if is_lower a then ascii_of_nat (nat_of_ascii a - 32) else a.
Definition lower_char (a : ascii) : ascii :=
  if is_upper a then ascii_of_nat (nat_of_ascii a + 32) else a.

(** [s.upper()] and [s.lower()] on ASCII letters; other bytes are kept. *)
Fixpoint upper (s : string) : string :=
  match s with
  | EmptyString => EmptyString
  | String a s' => String (upper_char a) (upper s')
  end.
Fixpoint lower (s : string) : string :=
  match s with
  | EmptyString => EmptyString
  | String a s' => String (lower_char a) (lower s')
  end.

(** [sub in s] on strings. *)
Fixpoint contains (sub s : string) : bool :=
  String.prefix sub s ||
  match s with
  | EmptyString => false
  | String _ s' => contains sub s'
  end.

(** [str(n)] / ["{}".format(n)] for an [int]. *)
Definition of_int (z : Z) : string := NilZero.string_of_int (Z.to_int z).

Definition all_digits (s : string) : bool :=
  forallb (fun a => (48 <=? nat_of_ascii a) && (nat_of_ascii a <=? 57))
          (list_ascii_of_string s).

End PyStr.

(** ** Parsed JSON *)

#[warnings="-register-all"]
Inductive json : Type :=
| JNull
| JBool (b : bool)
| JInt (z : Z)
| JFloat (q : Q)
| JStr (s : string)
| JList (items : list json)
| JDict (items : list (string * json)).

(** [key in d] followed by [d[key]] on a dict kept as its item list. *)
Fixpoint dict_get (key : string) (items : list (string * json)) : option json :=
  match items with
  | [] => None
  | (k, v) :: rest => if String.eqb k key then Some v else dict_get key rest
  end.

(** Truth value of a parsed JSON value, as [if not x] sees it. *)
Definition truthy (j : json) : bool :=
  match j with
  | JNull => false
  | JBool b => b
  | JInt z => negb (Z.eqb z 0)
  | JFloat q => negb (Qeq_bool q 0)
  | JStr s => negb (String.eqb s EmptyString)
  | JList l => match l with [] => false | _ => true end
  | JDict l => match l with [] => false | _ => true end
  end.

(** ** HTTP responses *)

(** [requests.Response]: [r_json] is what [response.json()] gives, [None]
    when it raises [JSONDecodeError].  Header names are compared without
    regard to case, as [requests] does. *)
Record Response := {
  status_code : Z;
  headers : list (string * string);
  r_json : option json
}.

Fixpoint header_get (name : string) (hs : list (string * string)) : option string :=
  match hs with
  | [] => None
  | (k, v) :: rest =>
      if String.eqb (PyStr.lower k) (PyStr.lower name) then Some v
      else header_get name rest
  end.

Definition header_in (name : string) (hs : list (string * string)) : bool :=
  match header_get name hs with Some _ => true | None => false end.

(** ** The cache of saved entities *)

(** One iteration of the loop of [save_subresources]. *)
Definition harvest_entry (subresources : list json) (entry : json) : list json :=
  match entry with
  | JDict items =>
      match dict_get "id" items with
      | Some i => subresources ++ [i]
      | None => subresources
      end
  | JStr s =>
      if PyStr.endswith "/" s then subresources ++ [JStr (PyStr.rstrip "/" s)]
      else subresources
  | _ => subresources
  end.

(** The loop over the entries of a list body, from an empty list. *)
Definition harvest_entries (entries : list json) : list json :=
  fold_left harvest_entry entries [].

(** The list [subresources] at the end of the [try] block. *)
Definition harvest (response : Response) : list json :=
  match r_json response with
  | Some (JList entries) => harvest_entries entries
  | _ => []
  end.

Definition save_subresources (path : string) (response : Response)
    (saved_entities : gmap string (list json)) : gmap string (list json) :=
  let subresources := harvest response in
  if 0 <? length subresources then
    match saved_entities !! path with
    | None => <[path := subresources]> saved_entities
    | Some old => <[path := old ++ subresources]> saved_entities
    end
  else saved_entities.

(** What a key of the cache holds: nothing when the key is absent. *)
Definition cached (saved_entities : gmap string (list json)) (path : string) : list json :=
  default [] (saved_entities !! path).

(** Every key of the cache maps to a non-empty list. *)
Definition cache_nonempty (saved_entities : gmap string (list json)) : Prop :=
  forall path ids, saved_entities !! path = Some ids -> ids <> [].

(** ** Test results *)

Inductive TestState := Pass | Fail | Manual | NA | Warning.

(** Modelled from the spec: [TestResult.Test] is imported by the engine but
    is not part of these sources.  The design document describes an outcome
    as the name of the check, one of five terminal states and a message;
    [Test(name).PASS()], [.FAIL(msg)], [.NA(msg)] and [.MANUAL(msg)] build
    one. *)
Record Outcome := {
  o_name : string;
  o_state : TestState;
  o_detail : string
}.

Definition Test_PASS (name : string) : Outcome :=
  {| o_name := name; o_state := Pass; o_detail := EmptyString |}.
Definition Test_FAIL (name detail : string) : Outcome :=
  {| o_name := name; o_state := Fail; o_detail := detail |}.
Definition Test_NA (name detail : string) : Outcome :=
  {| o_name := name; o_state := NA; o_detail := detail |}.
Definition Test_MANUAL (name detail : string) : Outcome :=
  {| o_name := name; o_state := Manual; o_detail := detail |}.

(** ** Exceptions *)

Inductive exn :=
| KeyError
| IndexError
| ValueError
| SchemaError
| RefResolutionError
| OutsideModel.

Inductive result (A : Type) : Type :=
| Ok (a : A)
| Raise (e : exn).
Arguments Ok {A} a.
Arguments Raise {A} e.

Definition bind {A B : Type} (m : result A) (k : A -> result B) : result B :=
  match m with
  | Ok a => k a
  | Raise e => Raise e
  end.

Notation "'let?' x := m 'in' k" := (bind m (fun x => k))
  (at level 10, x pattern, m at level 100, k at level 200).

(** ** The specification catalog *)

(** [resource[1]] of an entry of [get_reads()]: the method, the URI
    parameters ([None] when the RAML declares none) and the response codes. *)
Record Param := { p_name : string }.

Record Descriptor := {
  d_method : string;
  d_params : option (list Param);
  d_responses : list Z
}.

Definition Resource : Type := string * Descriptor.

(** An entry of [self.apis]; [get_reads] and [get_schema] stand for the
    methods of its [Specification] object, which is not part of these
    sources.  [get_schema] answers [JNull] for [None]. *)
Record API := {
  base_url : string;
  url : string;
  get_reads : list Resource;
  get_schema : string -> string -> Z -> json
}.

(** ** What the engine runs on *)

Inductive transport_result :=
| Sent (r : Response)
| Timeout
| TooManyRedirects
| ConnectionError (msg : string)
| RequestException (msg : string).

Inductive validation :=
| Valid
| ValidationError
| OtherError (e : exn).

(** The libraries under the engine.
    - [transport method url w]: what [Session.send] does to the world [w].
    - [py_str]: [str(x)] of a parsed JSON value that is not a string.
    - [headers_repr]: the text of a header dictionary.
    - [jsonschema_validate instance schema]. *)
Class Runtime := {
  World : Type;
  transport : string -> string -> World -> transport_result * World;
  py_str : json -> string;
  headers_repr : list (string * string) -> string;
  jsonschema_validate : json -> json -> validation
}.

(** ** [str.format] with one keyword argument *)

Definition format_value `{Runtime} (j : json) : string :=
  match j with
  | JStr s => s
  | _ => py_str j
  end.

Definition field_special (c : ascii) : bool :=
  Ascii.eqb c "!" || Ascii.eqb c ":" || Ascii.eqb c "." || Ascii.eqb c "[".

(** The value of the replacement field [field] when the only argument is the
    keyword [key = value]: an empty or numeric field indexes the empty
    positional tuple. *)
Definition format_field `{Runtime} (field key : string) (value : json) : result string :=
  if String.eqb field EmptyString then Raise IndexError
  else if PyStr.all_digits field then
    (if String.length field <=? 9 then Raise IndexError else Raise OutsideModel)
  else if String.eqb field key then Ok (format_value value)
  else Raise KeyError.

(** [template.format] with the single keyword argument [key = value],
    scanning [template] once.  [field] is
    [Some f] inside a replacement field whose name so far is [f]; [out] is
    the text produced so far.  Conversions, format specifications and
    attribute or index lookups inside a field are [OutsideModel]. *)
Fixpoint format_go `{Runtime} (template : string) (field : option string)
    (out key : string) (value : json) : result string :=
  match template with
  | EmptyString =>
      match field with
      | None => Ok out
      | Some _ => Raise ValueError
      end
  | String c rest =>
      match field with
      | None =>
          if Ascii.eqb c "{" then
            match rest with
            | String c' rest' =>
                if Ascii.eqb c' "{" then format_go rest' None (out +:+ "{") key value
                else format_go rest (Some EmptyString) out key value
            | EmptyString => Raise ValueError
            end
          else if Ascii.eqb c "}" then
            match rest with
            | String c' rest' =>
                if Ascii.eqb c' "}" then format_go rest' None (out +:+ "}") key value
                else Raise ValueError
            | EmptyString => Raise ValueError
            end
          else format_go rest None (out +:+ String c EmptyString) key value
      | Some f =>
          if Ascii.eqb c "{" then Raise ValueError
          else if Ascii.eqb c "}" then
            let? v := format_field f key value in
            format_go rest None (out +:+ v) key value
          else if field_special c then Raise OutsideModel
          else format_go rest (Some (f +:+ String c EmptyString)) out key value
      end
  end.

Definition py_format `{Runtime} (template key : string) (value : json) : result string :=
  format_go template None EmptyString key value.

(** ** The engine *)

(** The fields of [self] the run reads or writes, the world the requests
    act on, and [sent]: every [(method, url)] handed to [do_request], oldest
    first.  [apis] keeps the items of the dictionary in iteration order. *)
Record Engine `{Runtime} := {
  apis : list (string * API);
  test_version : string;
  omit_paths : list string;
  saved_entities : gmap string (list json);
  world : World;
  sent : list (string * string)
}.

(** A method of the engine: it returns or raises, and leaves [self] as it
    was at that point either way. *)
Definition M `{Runtime} (A : Type) : Type := Engine -> result A * Engine.

Definition ret `{Runtime} {A : Type} (a : A) : M A := fun self => (Ok a, self).

Definition lift `{Runtime} {A : Type} (r : result A) : M A := fun self => (r, self).

Definition bindM `{Runtime} {A B : Type} (m : M A) (k : A -> M B) : M B :=
  fun self =>
    match m self with
    | (Ok a, self') => k a self'
    | (Raise e, self') => (Raise e, self')
    end.

Notation "'let!' x := m 'in' k" := (bindM m (fun x => k))
  (at level 10, x pattern, m at level 100, k at level 200).

(** A [for] loop over [l] that threads the local [acc]. *)
Fixpoint for_each `{Runtime} {A S : Type} (body : A -> S -> M S) (l : list A) (acc : S)
    : M S :=
  match l with
  | [] => ret acc
  | x :: l' => let! acc' := body x acc in for_each body l' acc'
  end.

(** Which statement of [basics] appended an outcome; a label of the model,
    not a value the program holds. *)
Inductive origin :=
| Bootstrap (api : string)
| PerEndpoint (api : string).

Section GenericTest.
Context `{Runtime}.

Definition with_saved_entities (self : Engine) (m : gmap string (list json)) : Engine :=
  {| apis := apis self; test_version := test_version self;
     omit_paths := omit_paths self; saved_entities := m;
     world := world self; sent := sent self |}.

(** [self.apis[api]] *)
Fixpoint apis_get (api : string) (items : list (string * API)) : result API :=
  match items with
  | [] => Raise KeyError
  | (k, v) :: rest => if String.eqb k api then Ok v else apis_get api rest
  end.

Definition validate_CORS (method : string) (response : Response) : bool :=
  if negb (header_in "Access-Control-Allow-Origin" (headers response)) then false
  else if String.eqb method "OPTIONS" then
    if negb (header_in "Access-Control-Allow-Headers" (headers response)) then false
    else
      match header_get "Access-Control-Allow-Methods" (headers response) with
      | None => false
      | Some allowed => if negb (PyStr.contains method allowed) then false else true
      end
  else true.

(** Every failure of the transport is caught and returned as text. *)
Definition do_request (method url : string) : M (string + Response) :=
  fun self =>
    let '(r, w) := transport method url (world self) in
    let self' :=
      {| apis := apis self; test_version := test_version self;
         omit_paths := omit_paths self; saved_entities := saved_entities self;
         world := w; sent := sent self ++ [(method, url)] |} in
    match r with
    | Sent response => (Ok (inr response), self')
    | Timeout => (Ok (inl "Connection timeout"), self')
    | TooManyRedirects => (Ok (inl "Too many redirects"), self')
    | ConnectionError e => (Ok (inl e), self')
    | RequestException e => (Ok (inl e), self')
    end.

(** [expectation in body] for a list [body] and a string [expectation]. *)
Definition list_has_str (expectation : string) (body : list json) : bool :=
  existsb (fun e => match e with
                    | JStr s => String.eqb s expectation
                    | _ => false
                    end) body.

Definition check_base_path (base_url path expectation : string) : M Outcome :=
  let test := "GET " +:+ path in
  let! req := do_request "GET" (base_url +:+ path) in
  match req with
  | inl err => ret (Test_FAIL test ("Unable to connect to API: " +:+ err))
  | inr req =>
      if negb (status_code req =? 200)%Z then
        ret (Test_FAIL test ("Incorrect response code: "
                             +:+ PyStr.of_int (status_code req)))
      else if negb (validate_CORS "GET" req) then
        ret (Test_FAIL test ("Incorrect CORS headers: " +:+ headers_repr (headers req)))
      else
        match r_json req with
        | None => ret (Test_FAIL test "Non-JSON response returned")
        | Some (JList body) =>
            if list_has_str expectation body then ret (Test_PASS test)
            else ret (Test_FAIL test ("Response is not an array containing '"
                                      +:+ expectation +:+ "'"))
        | Some _ =>
            ret (Test_FAIL test ("Response is not an array containing '"
                                 +:+ expectation +:+ "'"))
        end
  end.

(** [response.json()] is evaluated as an argument of [jsonschema.validate],
    so a body that is not JSON raises before the validator sees the
    schema. *)
Definition check_response (schema : json) (method : string) (response : Response)
    : result (bool * string) :=
  if negb (validate_CORS method response) then
    Ok (false, "Incorrect CORS headers: " +:+ headers_repr (headers response))
  else
    match r_json response with
    | None => Ok (false, "Invalid JSON received")
    | Some body =>
        match jsonschema_validate body schema with
        | Valid => Ok (true, EmptyString)
        | ValidationError => Ok (false, "Response schema validation error")
        | OtherError e => Raise e
        end
    end.

(** [self.save_subresources(path, response)] as a method. *)
Definition do_save_subresources (path : string) (response : Response) : M unit :=
  fun self =>
    (Ok tt, with_saved_entities self (save_subresources path response (saved_entities self))).

(** The name given to the test of a resource:
    ["{} /x-nmos/{}/{}{}".format(method.upper(), api, self.test_version, tail)]. *)
Definition test_name (self : Engine) (resource : Resource) (api tail : string) : string :=
  PyStr.upper (d_method (snd resource)) +:+ " /x-nmos/" +:+ api +:+ "/"
  +:+ test_version self +:+ tail.

(** [check_api_resource] from the call of [do_request] to its end, shared
    by the branch with one parameter and the branch with none. *)
Definition request_and_check (resource : Resource) (response_code : Z) (api : string)
    (url test : string) : M (option Outcome) :=
  let! r := do_request (d_method (snd resource)) url in
  match r with
  | inl response => ret (Some (Test_FAIL test response))
  | inr response =>
      if negb (status_code response =? response_code)%Z then
        ret (Some (Test_FAIL test ("Incorrect response code: "
                                   +:+ PyStr.of_int (status_code response))))
      else
        let! _ := do_save_subresources (fst resource) response in
        let! schema :=
          (fun self =>
             lift (let? a := apis_get api (apis self) in
                   Ok (get_schema a (d_method (snd resource)) (fst resource)
                         (status_code response))) self) in
        if negb (truthy schema) then
          ret (Some (Test_MANUAL test "Test suite unable to locate schema"))
        else
          let! (valid, message) :=
            lift (check_response schema (d_method (snd resource)) response) in
          if valid then ret (Some (Test_PASS test))
          else ret (Some (Test_FAIL test message))
  end.

(** The key under which [check_api_resource] looks for saved entities. *)
Definition parent_path (template : string) : string :=
  PyStr.rstrip "/" (PyStr.split_head "{" template).

Definition check_api_resource (resource : Resource) (response_code : Z) (api : string)
    : M (option Outcome) :=
  fun self =>
    match d_params (snd resource) with
    | Some [param] =>
        let path := parent_path (fst resource) in
        match saved_entities self !! path with
        | Some ids =>
            match ids with
            | [] => (Raise IndexError, self)
            | entity :: _ =>
                (let! url_param :=
                   lift (py_format (fst resource) (p_name param) entity) in
                 let! a := lift (apis_get api (apis self)) in
                 let url := PyStr.rstrip "/" (url a) +:+ url_param in
                 let test := test_name self resource api url_param in
                 request_and_check resource response_code api url test) self
            end
        | None =>
            let test :=
              test_name self resource api (PyStr.rstrip "/" (fst resource)) in
            (Ok (Some (Test_NA test "No resources found to perform this test")), self)
        end
    | None | Some [] =>
        (let! a := lift (apis_get api (apis self)) in
         let url := PyStr.rstrip "/" (url a) +:+ fst resource in
         let test := test_name self resource api (PyStr.rstrip "/" (fst resource)) in
         request_and_check resource response_code api url test) self
    | Some (_ :: _ :: _) => (Ok None, self)
    end.

(** The body of [for response_code in resource[1]['responses']]. *)
Definition basics_response (api : string) (resource : Resource) (response_code : Z)
    (results : list (origin * Outcome)) : M (list (origin * Outcome)) :=
  fun self =>
    if (response_code =? 200)%Z
       && negb (existsb (String.eqb (fst resource)) (omit_paths self)) then
      (let! result := check_api_resource resource response_code api in
       match result with
       | Some r => ret (results ++ [(PerEndpoint api, r)])
       | None => ret results
       end) self
    else (Ok results, self).

(** The body of [for resource in self.apis[api]["spec"].get_reads()]. *)
Definition basics_resource (api : string) (resource : Resource)
    (results : list (origin * Outcome)) : M (list (origin * Outcome)) :=
  for_each (basics_response api resource) (d_responses (snd resource)) results.

(** The body of [for api in self.apis]. *)
Definition basics_api (api : string) (results : list (origin * Outcome))
    : M (list (origin * Outcome)) :=
  fun self =>
    (let! a := lift (apis_get api (apis self)) in
     let! r1 := check_base_path (base_url a) "/x-nmos" (api +:+ "/") in
     let results := results ++ [(Bootstrap api, r1)] in
     let! r2 := check_base_path (base_url a) ("/x-nmos/" +:+ api)
                  (test_version self +:+ "/") in
     let results := results ++ [(Bootstrap api, r2)] in
     for_each (basics_resource api) (get_reads a) results) self.

(** [basics] with every outcome labelled by the statement that appended it. *)
Definition basics_labelled : M (list (origin * Outcome)) :=
  fun self => for_each basics_api (map fst (apis self)) [] self.

(** [basics]: the list it returns. *)
Definition basics : M (list Outcome) :=
  let! results := basics_labelled in ret (map snd results).

End GenericTest.

(** ** Notions used to state the properties *)

(** No brace: text that [str.format] copies as it is. *)
Definition brace_free (s : string) : bool :=
  forallb (fun c => negb (Ascii.eqb c "{" || Ascii.eqb c "}")) (list_ascii_of_string s).

(** A parameter name that [str.format] looks up as a keyword: not empty, not
    a number, and free of braces and of the characters that start a
    conversion, a format specification or a lookup. *)
Definition keyword_name (s : string) : bool :=
  negb (String.eqb s EmptyString)
  && negb (PyStr.all_digits s)
  && forallb (fun c => negb (Ascii.eqb c "{" || Ascii.eqb c "}" || field_special c))
             (list_ascii_of_string s).

(** The labels of the outcomes of one API: its two base-path checks, then
    [n] resource checks. *)
Definition api_block (api : string) (n : nat) : list origin :=
  Bootstrap api :: Bootstrap api :: replicate n (PerEndpoint api).

(** Every base-path outcome comes before every resource outcome. *)
Definition bootstraps_first (labels : list origin) : Prop :=
  forall i j a b,
    labels !! i = Some (PerEndpoint a) -> labels !! j = Some (Bootstrap b) -> j < i.

(** A response whose body is a list of objects carrying the given ids. *)
Definition ids_response (ids : list json) : Response :=
  {| status_code := 200;
     headers := [("Access-Control-Allow-Origin", "*")];
     r_json := Some (JList (map (fun i => JDict [("id", i)]) ids)) |}.

Section Notions.
Context `{Runtime}.

(** From [self] to [self']: the configuration is the same, every cache
    entry is still there and has only grown at its end, no entry is empty
    if none was, and the requests sent so far are still on record. *)
Record evolves (self self' : Engine) : Prop := {
  ev_apis : apis self' = apis self;
  ev_version : test_version self' = test_version self;
  ev_omit : omit_paths self' = omit_paths self;
  ev_cached : forall p, cached (saved_entities self) p `prefix_of`
                        cached (saved_entities self') p;
  ev_keys : forall p, is_Some (saved_entities self !! p) ->
                      is_Some (saved_entities self' !! p);
  ev_nonempty : cache_nonempty (saved_entities self) ->
                cache_nonempty (saved_entities self');
  ev_sent : sent self `prefix_of` sent self'
}.

Definition evolving {A : Type} (m : M A) : Prop :=
  forall self, evolves self (snd (m self)).

End Notions.

(** ** A small deployment used to run the definitions *)

Module Demo.

Definition cors : list (string * string) := [("Access-Control-Allow-Origin", "*")].

Definition listing : json :=
  JList [JDict [("id", JStr "abc"); ("label", JStr "first")];
         JStr "xyz//";
         JStr "plain";
         JDict [("id", JStr "abc")]].

Definition versions : json := JList [JStr "node/"; JStr "query/"; JStr "v1.2/"].

(** A server that lists devices under [/devices] and answers every other
    request with the list of names; the world counts the requests. *)
Definition serve (method url : string) (w : nat) : transport_result * nat :=
  (Sent {| status_code := 200;
           headers := cors;
           r_json := Some (if PyStr.contains "/devices" url then listing else versions) |},
   S w).

Definition runtime : Runtime :=
  {| World := nat;
     transport := serve;
     py_str := fun _ => "null";
     headers_repr := fun _ => "{}";
     jsonschema_validate := fun _ _ => Valid |}.

Definition get (params : option (list Param)) : Descriptor :=
  {| d_method := "get"; d_params := params; d_responses := [200%Z] |}.

Definition self_resource : Resource := ("/self", get None).
Definition devices_resource : Resource := ("/devices", get (Some [])).
Definition device_resource : Resource :=
  ("/devices/{deviceId}", get (Some [{| p_name := "deviceId" |}])).
Definition nested_resource : Resource :=
  ("/devices/{deviceId}/ports/{portId}",
   get (Some [{| p_name := "deviceId" |}; {| p_name := "portId" |}])).

Definition schema : json := JDict [("type", JStr "object")].

Definition node_api : API :=
  {| base_url := "http://node.example";
     url := "http://node.example/x-nmos/node/v1.2/";
     get_reads := [self_resource; nested_resource; devices_resource; device_resource];
     get_schema := fun _ _ _ => schema |}.

Definition query_api : API :=
  {| base_url := "http://query.example";
     url := "http://query.example/x-nmos/query/v1.2/";
     get_reads := [self_resource];
     get_schema := fun _ _ _ => schema |}.

Definition engine : @Engine runtime :=
  @Build_Engine runtime
    [("node", node_api); ("query", query_api)]   (* apis *)
    "v1.2"                                       (* test_version *)
    []                                           (* omit_paths *)
    ∅                                            (* saved_entities *)
    0                                            (* world *)
    [].                                          (* sent *)

(** The labelled outcomes of [basics] on that engine. *)
Definition run_results : list (origin * Outcome) :=
  match fst (@basics_labelled runtime engine) with
  | Ok results => results
  | Raise _ => []
  end.

(** The same engine after devices [abc] and [xyz] were saved. *)
Definition engine_with_devices : @Engine runtime :=
  @with_saved_entities runtime engine {["/devices" := [JStr "abc"; JStr "xyz"]]}.

End Demo.

(** ** The version under test and the branch of the specification *)

Module PyText.

(** [s.lstrip(c)] for a one-character [c]. *)
Fixpoint lstrip (c : ascii) (s : string) : string :=
  match s with
  | EmptyString => EmptyString
  | String a s' => if Ascii.eqb a c then lstrip c s' else s
  end.

(** [s.strip(c)] for a one-character [c]. *)
Definition strip (c : ascii) (s : string) : string := PyStr.rstrip c (lstrip c s).

(** [s.split(c)] for a one-character [c]; the result is never empty. *)
Fixpoint split (c : ascii) (s : string) : list string :=
  match s with
  | EmptyString => [EmptyString]
  | String a s' =>
      if Ascii.eqb a c then EmptyString :: split c s'
      else
        match split c s' with
        | [] => [String a EmptyString]
        | part :: parts => String a part :: parts
        end
  end.

Definition digit_value (a : ascii) : Z := (Z.of_nat (nat_of_ascii a) - 48)%Z.

(** The number a string of decimal digits denotes. *)
Definition digits_value (s : string) : Z :=
  fold_left (fun acc a => (10 * acc + digit_value a)%Z) (list_ascii_of_string s) 0%Z.

(** [int(s)].  The empty string is a [ValueError]; a string of at most 4300
    ASCII digits is its value.  Signs, blanks, underscores, other scripts and
    longer strings are [OutsideModel]. *)
Definition int (s : string) : result Z :=
  if String.eqb s EmptyString then Raise ValueError
  else if PyStr.all_digits s && (String.length s <=? 4300) then Ok (digits_value s)
  else Raise OutsideModel.

End PyText.

(** [version_parts[1]] *)
Definition second_part (version_parts : list string) : result string :=
  match version_parts with
  | _ :: part :: _ => Ok part
  | _ => Raise IndexError
  end.

(** [version_parts[0]] *)
Definition first_part (version_parts : list string) : result string :=
  match version_parts with
  | part :: _ => Ok part
  | [] => Raise IndexError
  end.

Definition _parse_version (version : string) : result (Z * Z) :=
  let version_parts := PyText.split "." (PyText.strip "v" version) in
  let? major_text := first_part version_parts in
  let? major := PyText.int major_text in
  let? minor_text := second_part version_parts in
  let? minor := PyText.int minor_text in
  Ok (major, minor).

(** [branch_names] of [__init__]; [repo] is the text [str(repo)]. *)
Definition branch_names (test_version repo : string) : list string :=
  [test_version +:+ ".x"; test_version +:+ "-dev"]
  ++ (if PyStr.contains "06" repo then ["master"] else []).

(** The loop [for branch in branch_names] of [__init__] with its [break];
    [branches] is the text printed by [git branch -a]. *)
Fixpoint first_listed (branches : string) (names : list string) : option string :=
  match names with
  | [] => None
  | branch :: rest =>
      if PyStr.contains ("remotes/origin/" +:+ branch) branches then Some branch
      else first_listed branches rest
  end.

(** [spec_branch] as [__init__] checks it out; [None] where [__init__]
    raises "No branch matching the expected patterns was found in the Git
    repository". *)
Definition spec_branch (test_version repo branches : string) : option string :=
  match first_listed branches (branch_names test_version repo) with
  | Some branch => if String.eqb branch EmptyString then None else Some branch
  | None => None
  end.

(** ** Notions used to state further properties *)

(** An outcome that stands for a request made: any state but NA. *)
Definition requested (o : Outcome) : bool :=
  match o_state o with
  | NA => false
  | _ => true
  end.

Definition requests_made (outs : list Outcome) : nat :=
  length (List.filter requested outs).

(** The text of a string has no dot. *)
Definition dot_free (s : string) : bool :=
  forallb (fun c => negb (Ascii.eqb c ".")) (list_ascii_of_string s).

Section FurtherNotions.
Context `{Runtime}.




(** From [(acc, self)] to [(acc', self')]: outcomes were appended, none of
    them a WARNING, and as many requests were sent as there are appended
    outcomes that stand for one. *)
Definition extends_by (acc : list (origin * Outcome)) (self : Engine)
    (acc' : list (origin * Outcome)) (self' : Engine) : Prop :=
  exists new,
    acc' = acc ++ new
    /\ length (sent self') = length (sent self) + requests_made (map snd new)
    /\ Forall (fun x => o_state (snd x) <> Warning) new.


End FurtherNotions.

(** ** Strings *)

Module PyStrFacts.
Import PyStr.

Lemma append_nil_l (s : string) : EmptyString +:+ s = s.
Proof. reflexivity. Qed.

Lemma append_cons (a : ascii) (s t : string) : String a s +:+ t = String a (s +:+ t).
Proof. reflexivity. Qed.

Lemma append_empty_r (s : string) : s +:+ EmptyString = s.
Proof.
  induction s as [|a s IH]; [reflexivity |]. rewrite append_cons. now rewrite IH.
Qed.

Lemma append_assoc (s t u : string) : (s +:+ t) +:+ u = s +:+ t +:+ u.
Proof.
  induction s as [|a s IH]; [reflexivity |]. rewrite !append_cons. now rewrite IH.
Qed.

Lemma rstrip_cons (c a : ascii) (s : string) :
  rstrip c (String a s) =
  match rstrip c s with
  | EmptyString => if Ascii.eqb a c then EmptyString else String a EmptyString
  | String b r => String a (String b r)
  end.
Proof. simpl. now destruct (rstrip c s). Qed.

Lemma rstrip_replicate (c : ascii) (n : nat) : rstrip c (replicate n c) = EmptyString.
Proof.
  induction n as [|n IH]; [reflexivity |].
  cbn [replicate]. rewrite rstrip_cons, IH. now rewrite Ascii.eqb_refl.
Qed.

Lemma endswith_cons (c a : ascii) (s : string) :
  s <> EmptyString -> endswith c (String a s) = endswith c s.
Proof. destruct s; [congruence | reflexivity]. Qed.

(** Stripping removes exactly the trailing run of [c]. *)
Lemma rstrip_append_replicate (c : ascii) (t : string) (n : nat) :
  endswith c t = false -> rstrip c (t +:+ replicate n c) = t.
Proof.
  induction t as [|a t IH]; intros E.
  - rewrite append_nil_l. apply rstrip_replicate.
  - rewrite append_cons, rstrip_cons. destruct t as [|b t].
    + rewrite append_nil_l, rstrip_replicate. simpl in E. now rewrite E.
    + rewrite endswith_cons in E by discriminate. now rewrite (IH E).
Qed.

(** A string that does not end in [c] is left alone. *)
Lemma rstrip_id (c : ascii) (s : string) : endswith c s = false -> rstrip c s = s.
Proof.
  intros E. rewrite <- (append_empty_r s) at 1.
  exact (rstrip_append_replicate c s 0 E).
Qed.

Lemma endswith_append_char (c : ascii) (t : string) :
  endswith c (t +:+ String c EmptyString) = true.
Proof.
  induction t as [|a t IH].
  - simpl. apply Ascii.eqb_refl.
  - rewrite append_cons, endswith_cons; [exact IH |].
    destruct t; discriminate.
Qed.

Lemma endswith_true_split (c : ascii) (s : string) :
  endswith c s = true -> exists t, s = t +:+ String c EmptyString.
Proof.
  induction s as [|a s IH]; [discriminate |].
  destruct s as [|b s].
  - simpl. intros E. apply Ascii.eqb_eq in E. subst. now exists EmptyString.
  - intros E. rewrite endswith_cons in E by discriminate.
    destruct (IH E) as [t Ht]. exists (String a t).
    rewrite append_cons. now rewrite <- Ht.
Qed.

Lemma endswith_iff (c : ascii) (s : string) :
  endswith c s = true <-> exists t, s = t +:+ String c EmptyString.
Proof.
  split; [apply endswith_true_split |].
  intros [t ->]. apply endswith_append_char.
Qed.

Lemma replicate_snoc (c : ascii) (n : nat) :
  replicate (S n) c = replicate n c +:+ String c EmptyString.
Proof.
  induction n as [|n IH]; [reflexivity |].
  change (replicate (S (S n)) c) with (String c (replicate (S n) c)).
  rewrite IH at 1. reflexivity.
Qed.

Lemma endswith_append_replicate (c : ascii) (t : string) (n : nat) :
  endswith c (t +:+ replicate (S n) c) = true.
Proof.
  rewrite replicate_snoc, <- append_assoc. apply endswith_append_char.
Qed.

(** Every string is its stripped form followed by a run of [c]. *)
Lemma rstrip_decompose (c : ascii) (s : string) :
  exists n, s = rstrip c s +:+ replicate n c /\ endswith c (rstrip c s) = false.
Proof.
  induction s as [|a s (n & Hs & He)].
  - exists 0. split; reflexivity.
  - rewrite rstrip_cons. destruct (rstrip c s) as [|b r] eqn:R.
    + rewrite append_nil_l in Hs. destruct (Ascii.eqb a c) eqn:Eac.
      * apply Ascii.eqb_eq in Eac. subst a. exists (S n).
        split; [rewrite append_nil_l; cbn [replicate]; now rewrite <- Hs | reflexivity].
      * exists n. split; [| simpl; exact Eac].
        rewrite append_cons, append_nil_l. now rewrite <- Hs.
    + exists n. split; [rewrite append_cons; now rewrite <- Hs |].
      rewrite endswith_cons by discriminate. exact He.
Qed.

Lemma prefix_append (p s : string) : String.prefix p (p +:+ s) = true.
Proof.
  induction p as [|a p IH]; [now destruct s |].
  rewrite append_cons. simpl.
  destruct (ascii_dec a a); [exact IH | congruence].
Qed.

Lemma prefix_split (p s : string) :
  String.prefix p s = true -> exists r, s = p +:+ r.
Proof.
  revert s. induction p as [|a p IH]; intros s E.
  - now exists s.
  - destruct s as [|b s]; [discriminate |]. simpl in E.
    destruct (ascii_dec a b); [| discriminate]. subst.
    destruct (IH _ E) as [r ->]. now exists r.
Qed.

Lemma contains_cons (sub : string) (a : ascii) (s : string) :
  contains sub (String a s) = String.prefix sub (String a s) || contains sub s.
Proof. reflexivity. Qed.

(** [contains] is the substring test. *)
Lemma contains_iff (sub s : string) :
  contains sub s = true <-> exists pre post, s = pre +:+ sub +:+ post.
Proof.
  split.
  - induction s as [|a s IH]; intros E.
    + simpl in E. rewrite orb_false_r in E. destruct sub; [| discriminate].
      now exists EmptyString, EmptyString.
    + rewrite contains_cons in E. apply orb_true_iff in E as [E | E].
      * destruct (prefix_split sub (String a s) E) as [r Hr].
        now exists EmptyString, r.
      * destruct (IH E) as (pre & post & ->). now exists (String a pre), post.
  - intros (pre & post & ->). induction pre as [|a pre IH].
    + rewrite append_nil_l. destruct (sub +:+ post) eqn:E.
      * destruct sub; [reflexivity | discriminate].
      * rewrite contains_cons, <- E. now rewrite prefix_append.
    + rewrite append_cons, contains_cons, IH. apply orb_true_r.
Qed.

End PyStrFacts.

(** ** The harvest *)

Lemma harvest_entry_app (acc : list json) (entry : json) :
  harvest_entry acc entry = acc ++ harvest_entry [] entry.
Proof.
  destruct entry as [| | | |s| |items]; simpl; try (now rewrite app_nil_r).
  - destruct (PyStr.endswith "/" s); [reflexivity | now rewrite app_nil_r].
  - destruct (dict_get "id" items); [reflexivity | now rewrite app_nil_r].
Qed.

(** The loop appends what each entry yields, in the order of the entries. *)
Lemma harvest_loop (entries : list json) (acc : list json) :
  fold_left harvest_entry entries acc = acc ++ concat (map (harvest_entry []) entries).
Proof.
  revert acc. induction entries as [|e entries IH]; intros acc; simpl.
  - now rewrite app_nil_r.
  - rewrite IH, harvest_entry_app. now rewrite <- app_assoc.
Qed.

Lemma harvest_list (response : Response) (entries : list json) :
  r_json response = Some (JList entries) ->
  harvest response = concat (map (harvest_entry []) entries).
Proof. unfold harvest. intros ->. apply harvest_loop. Qed.

Lemma harvest_ids (ids : list json) : harvest (ids_response ids) = ids.
Proof.
  rewrite (harvest_list (ids_response ids) _ eq_refl).
  induction ids as [|i ids IH]; [reflexivity |].
  simpl. now rewrite IH.
Qed.

(** ** The cache under [save_subresources] *)

Lemma save_subresources_same (path : string) (response : Response)
    (m : gmap string (list json)) :
  cached (save_subresources path response m) path = cached m path ++ harvest response.
Proof.
  unfold save_subresources, cached.
  destruct (harvest response) as [|i ids] eqn:Hh; simpl.
  - now rewrite app_nil_r.
  - destruct (m !! path) as [old|] eqn:Hm; rewrite lookup_insert_eq; reflexivity.
Qed.

Lemma save_subresources_other (path path' : string) (response : Response)
    (m : gmap string (list json)) :
  path <> path' -> save_subresources path response m !! path' = m !! path'.
Proof.
  intros Hne. unfold save_subresources.
  destruct (0 <? length (harvest response)); [| reflexivity].
  destruct (m !! path); now rewrite lookup_insert_ne.
Qed.

Lemma save_subresources_keeps_keys (path p : string) (response : Response)
    (m : gmap string (list json)) :
  is_Some (m !! p) -> is_Some (save_subresources path response m !! p).
Proof.
  intros Hp. destruct (decide (path = p)) as [->|Hne].
  - unfold save_subresources.
    destruct (0 <? length (harvest response)); [| exact Hp].
    destruct (m !! p); rewrite lookup_insert_eq; eauto.
  - now rewrite save_subresources_other.
Qed.

Lemma save_subresources_nonempty (path : string) (response : Response)
    (m : gmap string (list json)) :
  cache_nonempty m -> cache_nonempty (save_subresources path response m).
Proof.
  intros Hm p ids. unfold save_subresources.
  destruct (harvest response) as [|i rest] eqn:Hh; simpl; [apply Hm |].
  destruct (m !! path) as [old|] eqn:Hold;
    (destruct (decide (path = p)) as [->|Hne];
     [rewrite lookup_insert_eq | rewrite lookup_insert_ne by done; apply Hm]).
  - intros [= <-]. now destruct old.
  - intros [= <-]. discriminate.
Qed.

(** A key appears only with a harvest that found something. *)
Lemma save_subresources_creates (path : string) (response : Response)
    (m : gmap string (list json)) :
  m !! path = None ->
  save_subresources path response m !! path =
  match harvest response with
  | [] => None
  | ids => Some ids
  end.
Proof.
  intros Hm. unfold save_subresources.
  destruct (harvest response) as [|i rest]; simpl; [exact Hm |].
  rewrite Hm. apply lookup_insert_eq.
Qed.

(** ** How a method may change the engine *)

Section Evolution.
Context `{Runtime}.

Lemma evolves_refl (self : Engine) : evolves self self.
Proof. split; auto; reflexivity. Qed.

Lemma evolves_trans (s1 s2 s3 : Engine) : evolves s1 s2 -> evolves s2 s3 -> evolves s1 s3.
Proof.
  intros [] []. split; try congruence; auto.
  - intros p. etransitivity; eauto.
  - etransitivity; eauto.
Qed.

Lemma evolving_ret {A : Type} (a : A) : evolving (ret a).
Proof. intros self. apply evolves_refl. Qed.

Lemma evolving_lift {A : Type} (r : result A) : evolving (lift r).
Proof. intros self. apply evolves_refl. Qed.

Lemma evolving_bind {A B : Type} (m : M A) (k : A -> M B) :
  evolving m -> (forall a, evolving (k a)) -> evolving (bindM m k).
Proof.
  intros Hm Hk self. unfold bindM. specialize (Hm self).
  destruct (m self) as [[a|e] self']; simpl in *; [| exact Hm].
  eapply evolves_trans; [exact Hm | apply Hk].
Qed.

Lemma evolving_for_each {A S : Type} (body : A -> S -> M S) (l : list A) :
  (forall x acc, evolving (body x acc)) -> forall acc, evolving (for_each body l acc).
Proof.
  intros Hbody. induction l as [|x l IH]; intros acc; simpl.
  - apply evolving_ret.
  - apply evolving_bind; auto.
Qed.

Lemma evolving_do_request (method url : string) : evolving (do_request method url).
Proof.
  intros self. unfold do_request.
  destruct (transport method url (world self)) as [r w].
  assert (E : evolves self
                {| apis := apis self; test_version := test_version self;
                   omit_paths := omit_paths self;
                   saved_entities := saved_entities self;
                   world := w; sent := sent self ++ [(method, url)] |}).
  { split; simpl; auto; try reflexivity. now apply prefix_app_r. }
  destruct r; exact E.
Qed.

Lemma evolving_do_save_subresources (path : string) (response : Response) :
  evolving (do_save_subresources path response).
Proof.
  intros self. unfold do_save_subresources. split; simpl; auto; try reflexivity.
  - intros p. destruct (decide (path = p)) as [->|Hne].
    + rewrite save_subresources_same. now apply prefix_app_r.
    + unfold cached. now rewrite save_subresources_other.
  - intros p. apply save_subresources_keeps_keys.
  - apply save_subresources_nonempty.
Qed.

Lemma evolving_check_base_path (base path expectation : string) :
  evolving (check_base_path base path expectation).
Proof.
  unfold check_base_path. apply evolving_bind; [apply evolving_do_request |].
  intros [err|req]; [apply evolving_ret |].
  destruct (negb (status_code req =? 200)%Z); [apply evolving_ret |].
  destruct (negb (validate_CORS "GET" req)); [apply evolving_ret |].
  destruct (r_json req) as [[| | | | |body|]|]; try apply evolving_ret.
  destruct (list_has_str expectation body); apply evolving_ret.
Qed.

Lemma evolving_request_and_check (resource : Resource) (response_code : Z)
    (api url test : string) :
  evolving (request_and_check resource response_code api url test).
Proof.
  unfold request_and_check. apply evolving_bind; [apply evolving_do_request |].
  intros [err|response]; [apply evolving_ret |].
  destruct (negb (status_code response =? response_code)%Z); [apply evolving_ret |].
  apply evolving_bind; [apply evolving_do_save_subresources |]. intros _.
  apply evolving_bind; [intros self; apply evolves_refl |]. intros schema.
  destruct (negb (truthy schema)); [apply evolving_ret |].
  apply evolving_bind; [apply evolving_lift |]. intros [valid message].
  destruct valid; apply evolving_ret.
Qed.

Lemma evolving_check_api_resource (resource : Resource) (response_code : Z)
    (api : string) :
  evolving (check_api_resource resource response_code api).
Proof.
  intros self. unfold check_api_resource.
  destruct (d_params (snd resource)) as [[|param [|param' rest]]|].
  - apply (evolving_bind (lift _)); [apply evolving_lift |].
    intros a. apply evolving_request_and_check.
  - destruct (saved_entities self !! parent_path (fst resource)) as [[|entity ids]|];
      try apply evolves_refl.
    apply (evolving_bind (lift _)); [apply evolving_lift |]. intros url_param.
    apply (evolving_bind (lift _)); [apply evolving_lift |]. intros a.
    apply evolving_request_and_check.
  - apply evolves_refl.
  - apply (evolving_bind (lift _)); [apply evolving_lift |].
    intros a. apply evolving_request_and_check.
Qed.

Lemma evolving_basics_response (api : string) (resource : Resource) (code : Z)
    (results : list (origin * Outcome)) :
  evolving (basics_response api resource code results).
Proof.
  intros self. unfold basics_response.
  destruct ((code =? 200)%Z && _); [| apply evolves_refl].
  apply evolving_bind; [apply evolving_check_api_resource |].
  intros [r|]; apply evolving_ret.
Qed.

Lemma evolving_basics_resource (api : string) (resource : Resource)
    (results : list (origin * Outcome)) :
  evolving (basics_resource api resource results).
Proof.
  unfold basics_resource. apply evolving_for_each.
  intros code acc. apply evolving_basics_response.
Qed.

Lemma evolving_basics_api (api : string) (results : list (origin * Outcome)) :
  evolving (basics_api api results).
Proof.
  intros self. unfold basics_api.
  apply (evolving_bind (lift _)); [apply evolving_lift |]. intros a.
  apply evolving_bind; [apply evolving_check_base_path |]. intros r1.
  apply evolving_bind; [apply evolving_check_base_path |]. intros r2.
  apply evolving_for_each. intros resource acc. apply evolving_basics_resource.
Qed.

Lemma evolving_basics_labelled : evolving basics_labelled.
Proof.
  intros self. unfold basics_labelled.
  apply evolving_for_each. intros api acc. apply evolving_basics_api.
Qed.

Lemma evolving_basics : evolving basics.
Proof.
  unfold basics. apply evolving_bind; [apply evolving_basics_labelled |].
  intros results. apply evolving_ret.
Qed.

End Evolution.

(** ** Claims about the harvest and the cache *)

Lemma harvest_entries_app (before after : list json) :
  harvest_entries (before ++ after) = harvest_entries before ++ harvest_entries after.
Proof.
  unfold harvest_entries. rewrite !harvest_loop. simpl.
  now rewrite map_app, concat_app.
Qed.

Lemma harvest_entries_cons (entry : json) (after : list json) :
  harvest_entries (entry :: after) = harvest_entry [] entry ++ harvest_entries after.
Proof. unfold harvest_entries. simpl. now rewrite !harvest_loop. Qed.

Lemma not_endswith (c : ascii) (s : string) :
  (forall t, s <> t +:+ String c EmptyString) -> PyStr.endswith c s = false.
Proof.
  intros Hs. destruct (PyStr.endswith c s) eqn:E; [| reflexivity].
  apply PyStrFacts.endswith_iff in E as [t ->]. now destruct (Hs t).
Qed.

(** C10.  In a list body, a string entry yields an identifier only when it
    ends in a slash, and the identifier is then the entry without its whole
    trailing run of slashes; a string entry that does not end in a slash
    yields nothing.  The entries around it yield what they yield alone. *)
Theorem harvest_string_entry (response : Response) (before after : list json)
    (s : string) :
  r_json response = Some (JList (before ++ JStr s :: after)) ->
  ((forall t, s <> t +:+ "/") ->
   harvest response = harvest_entries before ++ harvest_entries after)
  /\ (forall t n,
        (forall u, t <> u +:+ "/") ->
        s = t +:+ PyStr.replicate (S n) "/" ->
        harvest response = harvest_entries before ++ JStr t :: harvest_entries after).
Proof.
  intros Hbody. unfold harvest. rewrite Hbody.
  rewrite harvest_entries_app, harvest_entries_cons. split.
  - intros Hs. unfold harvest_entry. now rewrite (not_endswith "/" s Hs).
  - intros t n Ht ->. unfold harvest_entry.
    rewrite PyStrFacts.endswith_append_replicate.
    now rewrite (PyStrFacts.rstrip_append_replicate "/" t (S n) (not_endswith "/" t Ht)).
Qed.

Lemma abc_no_slash (u : string) : "abc" <> u +:+ "/".
Proof.
  intros E. assert (Hends : PyStr.endswith "/" "abc" = true).
  { apply PyStrFacts.endswith_iff. now exists u. }
  discriminate Hends.
Qed.

Lemma harvest_string_entry_witness :
  harvest {| status_code := 200; headers := [];
             r_json := Some (JList ([JStr "plain"] ++ JStr "abc//" :: [])) |}
  = [JStr "abc"].
Proof.
  exact (proj2 (harvest_string_entry
                  {| status_code := 200; headers := [];
                     r_json := Some (JList ([JStr "plain"] ++ JStr "abc//" :: [])) |}
                  [JStr "plain"] [] "abc//" eq_refl)
               "abc" 1 abc_no_slash eq_refl).
Defined.

Section CacheClaims.
Context `{Runtime}.

(** C5.  A harvest appends what it found, in order, to the entry of its
    path and touches no other entry: bodies yielding [a, b] and then [c]
    leave [a, b, c] under a fresh path, the same identifier harvested twice
    is stored twice, and across a resource check and across a whole run
    every entry is still present with its old content as a prefix. *)
Theorem harvest_append_only (path : string) (m : gmap string (list json))
    (r1 r2 : Response) (a b c : json) :
  m !! path = None ->
  harvest r1 = [a; b] ->
  harvest r2 = [c] ->
  save_subresources path r2 (save_subresources path r1 m) !! path = Some [a; b; c]
  /\ save_subresources path r2 (save_subresources path r2 m) !! path = Some [c; c]
  /\ (forall m' r,
        cached (save_subresources path r m') path = cached m' path ++ harvest r)
  /\ (forall m' r path',
        path <> path' -> save_subresources path r m' !! path' = m' !! path')
  /\ (forall resource code api self p,
        let self' := snd (check_api_resource resource code api self) in
        cached (saved_entities self) p `prefix_of` cached (saved_entities self') p
        /\ (is_Some (saved_entities self !! p) -> is_Some (saved_entities self' !! p)))
  /\ (forall self p,
        let self' := snd (basics self) in
        cached (saved_entities self) p `prefix_of` cached (saved_entities self') p
        /\ (is_Some (saved_entities self !! p) -> is_Some (saved_entities self' !! p))).
Proof.
  intros Hm H1 H2.
  assert (Hsame : forall m' r,
             cached (save_subresources path r m') path = cached m' path ++ harvest r)
    by (intros; apply save_subresources_same).
  assert (Htwice : forall ra rb ids,
             cached m path ++ harvest ra ++ harvest rb = ids -> ids <> [] ->
             save_subresources path rb (save_subresources path ra m) !! path = Some ids).
  { intros ra rb ids Hids Hne.
    assert (E : cached (save_subresources path rb (save_subresources path ra m)) path
                = ids) by (rewrite !Hsame, <- app_assoc; exact Hids).
    unfold cached in E.
    destruct (save_subresources path rb (save_subresources path ra m) !! path)
      as [l|] eqn:El; simpl in E; [now subst | congruence]. }
  assert (Hnone : cached m path = []) by (unfold cached; now rewrite Hm).
  repeat split.
  - apply Htwice; [now rewrite Hnone, H1, H2 | discriminate].
  - apply Htwice; [now rewrite Hnone, H2 | discriminate].
  - exact Hsame.
  - intros m' r path' Hne. now apply save_subresources_other.
  - apply (evolving_check_api_resource resource code api self).
  - apply (evolving_check_api_resource resource code api self).
  - apply (evolving_basics self).
  - apply (evolving_basics self).
Qed.

Lemma cache_nonempty_empty : cache_nonempty ∅.
Proof. intros p ids. rewrite lookup_empty. discriminate. Qed.

(** C9.  No key of the cache maps to an empty list: the empty cache of a
    new engine has no key, a harvest that finds nothing adds no key, and
    a harvest, a resource check and a whole run all keep every entry
    non-empty. *)
Theorem cache_entries_nonempty (self : Engine) :
  cache_nonempty (saved_entities self) ->
  (forall path r,
     cache_nonempty (save_subresources path r (saved_entities self))
     /\ (saved_entities self !! path = None -> harvest r = [] ->
         save_subresources path r (saved_entities self) !! path = None))
  /\ (forall resource code api,
        cache_nonempty (saved_entities (snd (check_api_resource resource code api self))))
  /\ cache_nonempty (saved_entities (snd (basics self))).
Proof.
  intros Hne. repeat split.
  - now apply save_subresources_nonempty.
  - intros Hnone Hr. rewrite save_subresources_creates by exact Hnone. now rewrite Hr.
  - intros resource code api.
    now apply (evolving_check_api_resource resource code api self).
  - now apply (evolving_basics self).
Qed.

End CacheClaims.

Lemma harvest_append_only_witness :
  save_subresources "/devices" (ids_response [JStr "c"])
    (save_subresources "/devices" (ids_response [JStr "a"; JStr "b"]) ∅) !! "/devices"
  = Some [JStr "a"; JStr "b"; JStr "c"].
Proof.
  exact (proj1 (@harvest_append_only Demo.runtime "/devices" ∅
                  (ids_response [JStr "a"; JStr "b"]) (ids_response [JStr "c"])
                  (JStr "a") (JStr "b") (JStr "c")
                  (lookup_empty _) eq_refl eq_refl)).
Defined.

Lemma cache_entries_nonempty_witness :
  cache_nonempty (saved_entities (snd (@basics Demo.runtime Demo.engine))).
Proof.
  exact (proj2 (proj2 (@cache_entries_nonempty Demo.runtime Demo.engine
                         cache_nonempty_empty))).
Defined.

(** ** Claims about the validation of a response *)

Section ValidationClaims.
Context `{Runtime}.

Lemma validate_CORS_headers (method : string) (response response' : Response) :
  headers response' = headers response ->
  validate_CORS method response' = validate_CORS method response.
Proof. unfold validate_CORS. now intros ->. Qed.

(** C7.  [validate_CORS] accepts a response exactly when it carries
    [Access-Control-Allow-Origin] and, for the method [OPTIONS], also
    carries [Access-Control-Allow-Headers] and an
    [Access-Control-Allow-Methods] whose value contains the method name.
    Neither the status code nor the body plays a part. *)
Theorem validate_CORS_requirements (method : string) (response : Response) :
  (header_in "Access-Control-Allow-Origin" (headers response) = false ->
   validate_CORS method response = false)
  /\ (validate_CORS method response = true <->
      header_in "Access-Control-Allow-Origin" (headers response) = true
      /\ (method = "OPTIONS" ->
          header_in "Access-Control-Allow-Headers" (headers response) = true
          /\ exists pre post,
               header_get "Access-Control-Allow-Methods" (headers response)
               = Some (pre +:+ method +:+ post)))
  /\ (forall code code' body body',
        validate_CORS method {| status_code := code; headers := headers response;
                                r_json := body |}
        = validate_CORS method {| status_code := code'; headers := headers response;
                                  r_json := body' |}).
Proof.
  split; [| split].
  - unfold validate_CORS. now intros ->.
  - unfold validate_CORS.
    destruct (header_in "Access-Control-Allow-Origin" (headers response)); simpl;
      [| split; [discriminate | now intros [? _]]].
    destruct (String.eqb method "OPTIONS") eqn:Em.
    + apply String.eqb_eq in Em.
      destruct (header_in "Access-Control-Allow-Headers" (headers response)); simpl.
      * destruct (header_get "Access-Control-Allow-Methods" (headers response))
          as [allowed|].
        -- destruct (PyStr.contains method allowed) eqn:Ec; simpl.
           ++ apply PyStrFacts.contains_iff in Ec as (pre & post & ->).
              split; [| reflexivity]. intros _. split; [reflexivity |].
              intros _. split; [reflexivity |]. now exists pre, post.
           ++ split; [discriminate |]. intros [_ Hopt].
              destruct (Hopt Em) as (_ & pre & post & [= ->]).
              assert (Hc : PyStr.contains method (pre +:+ method +:+ post) = true)
                by (apply PyStrFacts.contains_iff; now exists pre, post).
              congruence.
        -- split; [discriminate |]. intros [_ Hopt].
           now destruct (Hopt Em) as (_ & pre & post & ?).
      * split; [discriminate |]. intros [_ Hopt]. now destruct (Hopt Em).
    + apply String.eqb_neq in Em. split; [| reflexivity].
      intros _. split; [reflexivity | now intros ?].
  - reflexivity.
Qed.

(** C6.  [check_response] looks at the CORS headers first, then at whether
    the body is JSON, then at the schema.  With bad CORS headers the
    verdict is the CORS message whatever the body and the schema are; with
    good headers and a body that is not JSON it is the invalid-JSON message
    whatever the schema is; only a JSON body reaches the validator. *)
Theorem check_response_precedence (method : string) (response : Response) :
  (validate_CORS method response = false ->
   forall schema response',
     headers response' = headers response ->
     check_response schema method response'
     = Ok (false, "Incorrect CORS headers: " +:+ headers_repr (headers response)))
  /\ (validate_CORS method response = true ->
      r_json response = None ->
      forall schema,
        check_response schema method response = Ok (false, "Invalid JSON received"))
  /\ (validate_CORS method response = true ->
      forall body schema,
        r_json response = Some body ->
        check_response schema method response
        = match jsonschema_validate body schema with
          | Valid => Ok (true, EmptyString)
          | ValidationError => Ok (false, "Response schema validation error")
          | OtherError e => Raise e
          end).
Proof.
  split; [| split].
  - intros Hcors schema response' Hh. unfold check_response.
    rewrite (validate_CORS_headers method response response' Hh), Hcors, Hh.
    reflexivity.
  - intros Hcors Hjson schema. unfold check_response. now rewrite Hcors, Hjson.
  - intros Hcors body schema Hjson. unfold check_response. now rewrite Hcors, Hjson.
Qed.

End ValidationClaims.

Lemma validate_CORS_requirements_witness :
  validate_CORS "OPTIONS"
    {| status_code := 200;
       headers := [("Content-Type", "application/json")];
       r_json := Some (JList []) |} = false.
Proof.
  exact (proj1 (validate_CORS_requirements "OPTIONS"
                  {| status_code := 200;
                     headers := [("Content-Type", "application/json")];
                     r_json := Some (JList []) |}) eq_refl).
Defined.

Lemma check_response_precedence_witness :
  @check_response Demo.runtime Demo.schema "get"
    {| status_code := 200; headers := Demo.cors; r_json := None |}
  = Ok (false, "Invalid JSON received").
Proof.
  exact (proj1 (proj2 (@check_response_precedence Demo.runtime "get"
                         {| status_code := 200; headers := Demo.cors; r_json := None |}))
               eq_refl eq_refl Demo.schema).
Defined.

(** ** [str.format] on a path template *)

Section FormatFacts.
Context `{Runtime}.

Lemma list_ascii_append (s t : string) :
  list_ascii_of_string (s +:+ t) = list_ascii_of_string s ++ list_ascii_of_string t.
Proof.
  induction s as [|a s IH]; [reflexivity |].
  rewrite PyStrFacts.append_cons. simpl. now rewrite IH.
Qed.

(** Text without braces is copied to the output. *)
Lemma format_go_text (s rest out key : string) (value : json) :
  brace_free s = true ->
  format_go (s +:+ rest) None out key value = format_go rest None (out +:+ s) key value.
Proof.
  revert out. induction s as [|c s IH]; intros out Hs.
  - now rewrite PyStrFacts.append_nil_l, PyStrFacts.append_empty_r.
  - unfold brace_free in Hs. simpl in Hs.
    apply andb_true_iff in Hs as [Hc Hs].
    apply negb_true_iff, orb_false_iff in Hc as [Hopen Hclose].
    rewrite PyStrFacts.append_cons. simpl. rewrite Hopen, Hclose.
    rewrite (IH _ Hs). f_equal.
    rewrite PyStrFacts.append_assoc. reflexivity.
Qed.

(** Inside a field, the characters of a name are collected up to the
    closing brace. *)
Lemma format_go_field (s rest f out key : string) (value : json) :
  forallb (fun c => negb (Ascii.eqb c "{" || Ascii.eqb c "}" || field_special c))
          (list_ascii_of_string s) = true ->
  format_go (s +:+ String "}" rest) (Some f) out key value
  = let? v := format_field (f +:+ s) key value in
    format_go rest None (out +:+ v) key value.
Proof.
  revert f. induction s as [|c s IH]; intros f Hs.
  - rewrite PyStrFacts.append_nil_l, PyStrFacts.append_empty_r. reflexivity.
  - simpl in Hs. apply andb_true_iff in Hs as [Hc Hs].
    apply negb_true_iff, orb_false_iff in Hc as [Hc Hspecial].
    apply orb_false_iff in Hc as [Hopen Hclose].
    rewrite PyStrFacts.append_cons. simpl. rewrite Hopen, Hclose, Hspecial.
    rewrite (IH _ Hs). now rewrite PyStrFacts.append_assoc.
Qed.

Lemma format_go_text_end (s out key : string) (value : json) :
  brace_free s = true -> format_go s None out key value = Ok (out +:+ s).
Proof.
  intros Hs. rewrite <- (PyStrFacts.append_empty_r s) at 1.
  now rewrite (format_go_text s EmptyString out key value Hs).
Qed.

(** A single opening brace starts a field. *)
Lemma format_go_open (c : ascii) (rest out key : string) (value : json) :
  Ascii.eqb c "{" = false ->
  format_go (String "{" (String c rest)) None out key value
  = format_go (String c rest) (Some EmptyString) out key value.
Proof. intros Hc. simpl. now rewrite Hc. Qed.

(** A template with one field named like the keyword: the value takes the
    place of the field, the text around it is kept. *)
Lemma py_format_one_field (pre post name : string) (value : json) :
  brace_free pre = true ->
  brace_free post = true ->
  keyword_name name = true ->
  py_format (pre +:+ "{" +:+ name +:+ "}" +:+ post) name value
  = Ok (pre +:+ format_value value +:+ post).
Proof.
  intros Hpre Hpost Hname. unfold py_format.
  rewrite (format_go_text pre _ _ _ _ Hpre), PyStrFacts.append_nil_l.
  unfold keyword_name in Hname.
  apply andb_true_iff in Hname as [Hname Hchars].
  apply andb_true_iff in Hname as [Hnonempty Hdigits].
  apply negb_true_iff in Hnonempty, Hdigits.
  destruct name as [|c name]; [discriminate |].
  change ("{" +:+ String c name +:+ "}" +:+ post)
    with (String "{" (String c (name +:+ String "}" post))).
  assert (Hc : Ascii.eqb c "{" = false).
  { simpl in Hchars. apply andb_true_iff in Hchars as [Hc _].
    apply negb_true_iff, orb_false_iff in Hc as [Hc _].
    now apply orb_false_iff in Hc as [Hc _]. }
  rewrite (format_go_open c _ _ _ _ Hc).
  change (String c (name +:+ String "}" post))
    with (String c name +:+ String "}" post).
  rewrite (format_go_field (String c name) post EmptyString pre (String c name) value)
    by exact Hchars.
  rewrite PyStrFacts.append_nil_l. unfold format_field.
  rewrite Hnonempty, Hdigits, String.eqb_refl. simpl.
  rewrite (format_go_text_end post _ _ _ Hpost).
  now rewrite PyStrFacts.append_assoc.
Qed.

Lemma split_head_text (s rest : string) :
  brace_free s = true -> PyStr.split_head "{" (s +:+ String "{" rest) = s.
Proof.
  induction s as [|c s IH]; intros Hs.
  - reflexivity.
  - unfold brace_free in Hs. simpl in Hs. apply andb_true_iff in Hs as [Hc Hs].
    apply negb_true_iff, orb_false_iff in Hc as [Hopen _].
    rewrite PyStrFacts.append_cons. simpl. rewrite Hopen. now rewrite (IH Hs).
Qed.

(** The key of [/collection/{id}...] is [/collection]. *)
Lemma parent_path_template (pre rest : string) (n : nat) :
  brace_free pre = true ->
  PyStr.endswith "/" pre = false ->
  parent_path ((pre +:+ PyStr.replicate n "/") +:+ String "{" rest) = pre.
Proof.
  intros Hpre Hend. unfold parent_path. rewrite split_head_text.
  - now apply PyStrFacts.rstrip_append_replicate.
  - unfold brace_free in *. rewrite list_ascii_append, forallb_app, Hpre. simpl.
    clear. induction n as [|n IH]; [reflexivity | exact IH].
Qed.

End FormatFacts.

(** ** Claims about the check of one resource *)

Section ResourceClaims.
Context `{Runtime}.

(** [do_request] comes first and nothing after it sends anything. *)
Lemma request_and_check_sent (resource : Resource) (code : Z) (api url test : string)
    (self : Engine) :
  sent (snd (request_and_check resource code api url test self))
  = sent self ++ [(d_method (snd resource), url)].
Proof.
  unfold request_and_check, bindM, do_request, do_save_subresources, lift, ret, bind.
  destruct (transport (d_method (snd resource)) url (world self)) as [r w].
  destruct r as [response| | | |]; simpl; try reflexivity.
  destruct (negb (status_code response =? code)%Z); simpl; [reflexivity |].
  destruct (apis_get api (apis self)) as [a|e]; simpl; [| reflexivity].
  destruct (negb (truthy _)); simpl; [reflexivity |].
  destruct (check_response _ _ _) as [[[|] message]|e]; reflexivity.
Qed.

Lemma check_api_resource_no_param (resource : Resource) (code : Z) (api : string)
    (self : Engine) (a : API) :
  d_params (snd resource) = None \/ d_params (snd resource) = Some [] ->
  apis_get api (apis self) = Ok a ->
  check_api_resource resource code api self
  = request_and_check resource code api
      (PyStr.rstrip "/" (url a) +:+ fst resource)
      (test_name self resource api (PyStr.rstrip "/" (fst resource))) self.
Proof.
  intros Hp Ha. unfold check_api_resource, bindM, lift.
  destruct Hp as [-> | ->]; now rewrite Ha.
Qed.

(** C2, as the code has it.  For a resource without path parameters the
    URL requested is the API's [url] without its trailing slashes followed
    by the path template as it is, whatever the cache holds; it is [url]
    followed by the template when [url] does not end in a slash. *)
Theorem no_param_url (resource : Resource) (code : Z) (api : string)
    (self : Engine) (a : API) :
  d_params (snd resource) = None \/ d_params (snd resource) = Some [] ->
  apis_get api (apis self) = Ok a ->
  (forall m,
     sent (snd (check_api_resource resource code api (with_saved_entities self m)))
     = sent self ++ [(d_method (snd resource),
                      PyStr.rstrip "/" (url a) +:+ fst resource)])
  /\ (PyStr.endswith "/" (url a) = false ->
      sent (snd (check_api_resource resource code api self))
      = sent self ++ [(d_method (snd resource), url a +:+ fst resource)]).
Proof.
  intros Hp Ha. split.
  - intros m.
    rewrite (check_api_resource_no_param resource code api
               (with_saved_entities self m) a Hp Ha).
    now rewrite request_and_check_sent.
  - intros Hend.
    rewrite (check_api_resource_no_param resource code api self a Hp Ha).
    now rewrite request_and_check_sent, (PyStrFacts.rstrip_id "/" (url a) Hend).
Qed.

Lemma check_api_resource_absent (resource : Resource) (code : Z) (api : string)
    (self : Engine) (param : Param) :
  d_params (snd resource) = Some [param] ->
  saved_entities self !! parent_path (fst resource) = None ->
  check_api_resource resource code api self
  = (Ok (Some (Test_NA (test_name self resource api (PyStr.rstrip "/" (fst resource)))
                 "No resources found to perform this test")), self).
Proof. intros Hp Hl. unfold check_api_resource. now rewrite Hp, Hl. Qed.

(** In a cache without empty entries, a key that holds nothing is absent. *)
Lemma cached_nil_absent (m : gmap string (list json)) (p : string) :
  cache_nonempty m -> cached m p = [] -> m !! p = None.
Proof.
  intros Hne Hc. unfold cached in Hc.
  destruct (m !! p) as [ids|] eqn:El; [| reflexivity].
  simpl in Hc. subst ids. now destruct (Hne _ _ El).
Qed.

(** C3.  For a resource with one path parameter whose key holds nothing in
    the cache, the check returns an outcome in state NA with the message
    "No resources found to perform this test" and leaves the engine as it
    was: nothing is added to the requests sent. *)
Theorem no_saved_entity_is_NA (resource : Resource) (code : Z) (api : string)
    (self : Engine) (param : Param) :
  d_params (snd resource) = Some [param] ->
  cache_nonempty (saved_entities self) ->
  cached (saved_entities self) (parent_path (fst resource)) = [] ->
  check_api_resource resource code api self
  = (Ok (Some (Test_NA (test_name self resource api (PyStr.rstrip "/" (fst resource)))
                 "No resources found to perform this test")), self)
  /\ sent (snd (check_api_resource resource code api self)) = sent self.
Proof.
  intros Hp Hne Hnone.
  pose proof (check_api_resource_absent resource code api self param Hp
                (cached_nil_absent _ _ Hne Hnone)) as E.
  split; [exact E | now rewrite E].
Qed.

Lemma check_api_resource_one_param (resource : Resource) (code : Z) (api : string)
    (self : Engine) (param : Param) (entity : json) (rest : list json)
    (a : API) (url_param : string) :
  d_params (snd resource) = Some [param] ->
  saved_entities self !! parent_path (fst resource) = Some (entity :: rest) ->
  py_format (fst resource) (p_name param) entity = Ok url_param ->
  apis_get api (apis self) = Ok a ->
  check_api_resource resource code api self
  = request_and_check resource code api
      (PyStr.rstrip "/" (url a) +:+ url_param)
      (test_name self resource api url_param) self.
Proof.
  intros Hp Hl Hf Ha. unfold check_api_resource, bindM, lift.
  now rewrite Hp, Hl, Hf, Ha.
Qed.

(** C4.  For a resource with one path parameter whose key holds at least
    one identifier, the URL requested is the API's [url] without its
    trailing slashes followed by the template formatted with the first
    identifier of the entry; for a template with one field named like the
    parameter that is the template with the first identifier in the place
    of the field.  The later identifiers play no part. *)
Theorem first_saved_entity_used (resource : Resource) (code : Z) (api : string)
    (self : Engine) (param : Param) (entity : json) (rest : list json) (a : API) :
  d_params (snd resource) = Some [param] ->
  saved_entities self !! parent_path (fst resource) = Some (entity :: rest) ->
  apis_get api (apis self) = Ok a ->
  (forall url_param,
     py_format (fst resource) (p_name param) entity = Ok url_param ->
     sent (snd (check_api_resource resource code api self))
     = sent self ++ [(d_method (snd resource),
                      PyStr.rstrip "/" (url a) +:+ url_param)])
  /\ (forall pre post,
        fst resource = pre +:+ "{" +:+ p_name param +:+ "}" +:+ post ->
        brace_free pre = true ->
        brace_free post = true ->
        keyword_name (p_name param) = true ->
        sent (snd (check_api_resource resource code api self))
        = sent self ++ [(d_method (snd resource),
                         PyStr.rstrip "/" (url a) +:+ pre
                         +:+ format_value entity +:+ post)]).
Proof.
  intros Hp Hl Ha.
  assert (Hgen : forall url_param,
             py_format (fst resource) (p_name param) entity = Ok url_param ->
             sent (snd (check_api_resource resource code api self))
             = sent self ++ [(d_method (snd resource),
                              PyStr.rstrip "/" (url a) +:+ url_param)]).
  { intros url_param Hf.
    rewrite (check_api_resource_one_param resource code api self param entity rest a
               url_param Hp Hl Hf Ha).
    apply request_and_check_sent. }
  split; [exact Hgen |].
  intros pre post Ht Hpre Hpost Hname. apply Hgen.
  rewrite Ht. now apply py_format_one_field.
Qed.

Lemma check_api_resource_several (resource : Resource) (ps : list Param)
    (code : Z) (api : string) (self : Engine) :
  d_params (snd resource) = Some ps -> 2 <= length ps ->
  check_api_resource resource code api self = (Ok None, self).
Proof.
  intros Hp Hlen. unfold check_api_resource. rewrite Hp.
  destruct ps as [|p1 [|p2 ps]]; simpl in Hlen; [lia | lia | reflexivity].
Qed.

Lemma basics_resource_several (resource : Resource) (ps : list Param)
    (api : string) (results : list (origin * Outcome)) (self : Engine) :
  d_params (snd resource) = Some ps -> 2 <= length ps ->
  basics_resource api resource results self = (Ok results, self).
Proof.
  intros Hp Hlen. unfold basics_resource.
  induction (d_responses (snd resource)) as [|c codes IH]; [reflexivity |].
  simpl. unfold bindM at 1. unfold basics_response at 1.
  destruct ((c =? 200)%Z && _); [| exact IH].
  unfold bindM at 1.
  rewrite (check_api_resource_several resource ps c api self Hp Hlen). exact IH.
Qed.

(** A loop skips an element whose body changes nothing. *)
Lemma for_each_skip {A S : Type} (body : A -> S -> M S) (x : A)
    (before after : list A) :
  (forall acc self, body x acc self = (Ok acc, self)) ->
  forall acc self,
    for_each body (before ++ x :: after) acc self
    = for_each body (before ++ after) acc self.
Proof.
  intros Hx. induction before as [|y before IH]; intros acc self; simpl.
  - unfold bindM. now rewrite Hx.
  - unfold bindM. destruct (body y acc self) as [[acc'|e] self']; [apply IH | reflexivity].
Qed.

(** C8.  For a resource with more than one path parameter the check
    returns no outcome and leaves the engine as it was, so it sends
    nothing; in the loop over the resources of an API the outcomes and the
    engine are those of the loop without that resource. *)
Theorem several_params_skipped (resource : Resource) (ps : list Param) (api : string) :
  d_params (snd resource) = Some ps ->
  2 <= length ps ->
  (forall code self,
     check_api_resource resource code api self = (Ok None, self)
     /\ sent (snd (check_api_resource resource code api self)) = sent self)
  /\ (forall before after results self,
        for_each (basics_resource api) (before ++ resource :: after) results self
        = for_each (basics_resource api) (before ++ after) results self).
Proof.
  intros Hp Hlen. split.
  - intros code self.
    now rewrite (check_api_resource_several resource ps code api self Hp Hlen).
  - intros before after. apply for_each_skip.
    intros acc self. now apply (basics_resource_several resource ps).
Qed.

End ResourceClaims.

Lemma no_param_url_witness :
  sent (snd (@check_api_resource Demo.runtime Demo.self_resource 200 "node"
               Demo.engine_with_devices))
  = [("get", "http://node.example/x-nmos/node/v1.2/self")].
Proof.
  exact (proj1 (@no_param_url Demo.runtime Demo.self_resource 200 "node" Demo.engine
                  Demo.node_api (or_introl eq_refl) eq_refl)
               {["/devices" := [JStr "abc"; JStr "xyz"]]}).
Defined.

(** C2, as the design document words it, fails where the API's [url] ends in
    a slash: the URL requested is not [url] followed by the template. *)
Lemma no_param_url_literal_counterexample :
  apis_get "node" (apis Demo.engine) = Ok Demo.node_api
  /\ d_params (snd Demo.self_resource) = None
  /\ sent (snd (@check_api_resource Demo.runtime Demo.self_resource 200 "node" Demo.engine))
     <> sent Demo.engine
        ++ [(d_method (snd Demo.self_resource),
             url Demo.node_api +:+ fst Demo.self_resource)].
Proof.
  split; [reflexivity |]. split; [reflexivity |].
  vm_compute. discriminate.
Qed.

Lemma no_saved_entity_is_NA_witness :
  @check_api_resource Demo.runtime Demo.device_resource 200 "node" Demo.engine
  = (Ok (Some (Test_NA "GET /x-nmos/node/v1.2/devices/{deviceId}"
                 "No resources found to perform this test")), Demo.engine)
  /\ sent (snd (@check_api_resource Demo.runtime Demo.device_resource 200 "node"
                  Demo.engine)) = [].
Proof.
  exact (@no_saved_entity_is_NA Demo.runtime Demo.device_resource 200 "node" Demo.engine
           {| p_name := "deviceId" |} eq_refl cache_nonempty_empty eq_refl).
Defined.

Lemma first_saved_entity_used_witness :
  sent (snd (@check_api_resource Demo.runtime Demo.device_resource 200 "node"
               Demo.engine_with_devices))
  = [("get", "http://node.example/x-nmos/node/v1.2/devices/abc")].
Proof.
  exact (proj2 (@first_saved_entity_used Demo.runtime Demo.device_resource 200 "node"
                  Demo.engine_with_devices {| p_name := "deviceId" |}
                  (JStr "abc") [JStr "xyz"] Demo.node_api eq_refl eq_refl eq_refl)
               "/devices/" EmptyString eq_refl eq_refl eq_refl eq_refl).
Defined.

Lemma several_params_skipped_witness :
  @check_api_resource Demo.runtime Demo.nested_resource 200 "node" Demo.engine
  = (Ok None, Demo.engine).
Proof.
  exact (proj1 (proj1 (@several_params_skipped Demo.runtime Demo.nested_resource
                         [{| p_name := "deviceId" |}; {| p_name := "portId" |}] "node"
                         eq_refl (le_n 2))
                      200%Z Demo.engine)).
Defined.

(** ** Claims about the order of a run *)

Section RunClaims.
Context `{Runtime}.

(** A loop whose body appends only outcomes labelled [lbl] appends only
    such outcomes. *)
Lemma for_each_labels {A : Type}
    (body : A -> list (origin * Outcome) -> M (list (origin * Outcome)))
    (lbl : origin) :
  (forall x acc self acc',
     fst (body x acc self) = Ok acc' ->
     exists n, map fst acc' = map fst acc ++ replicate n lbl) ->
  forall l acc self acc',
    fst (for_each body l acc self) = Ok acc' ->
    exists n, map fst acc' = map fst acc ++ replicate n lbl.
Proof.
  intros Hbody. induction l as [|x l IH]; intros acc self acc'; simpl.
  - intros [= <-]. exists 0. simpl. now rewrite app_nil_r.
  - unfold bindM. destruct (body x acc self) as [[acc1|e] self1] eqn:Eb;
      [| discriminate].
    intros Hrest. destruct (Hbody x acc self acc1) as [n1 H1]; [now rewrite Eb |].
    destruct (IH _ _ _ Hrest) as [n2 H2].
    exists (n1 + n2). now rewrite H2, H1, replicate_add, app_assoc.
Qed.

Lemma basics_response_labels (api : string) (resource : Resource) (code : Z)
    (acc : list (origin * Outcome)) (self : Engine) (acc' : list (origin * Outcome)) :
  fst (basics_response api resource code acc self) = Ok acc' ->
  exists n, map fst acc' = map fst acc ++ replicate n (PerEndpoint api).
Proof.
  unfold basics_response.
  destruct ((code =? 200)%Z && _).
  - unfold bindM.
    destruct (check_api_resource resource code api self) as [[[r|]|e] self'];
      simpl; intros [= <-].
    + exists 1. now rewrite map_app.
    + exists 0. simpl. now rewrite app_nil_r.
  - simpl. intros [= <-]. exists 0. simpl. now rewrite app_nil_r.
Qed.

Lemma basics_resource_labels (api : string) (resource : Resource)
    (acc : list (origin * Outcome)) (self : Engine) (acc' : list (origin * Outcome)) :
  fst (basics_resource api resource acc self) = Ok acc' ->
  exists n, map fst acc' = map fst acc ++ replicate n (PerEndpoint api).
Proof.
  unfold basics_resource. apply for_each_labels.
  intros code. apply basics_response_labels.
Qed.

(** One API contributes its two base-path outcomes, then resource
    outcomes. *)
Lemma basics_api_labels (api : string) (acc : list (origin * Outcome))
    (self : Engine) (acc' : list (origin * Outcome)) :
  fst (basics_api api acc self) = Ok acc' ->
  exists n, map fst acc' = map fst acc ++ api_block api n.
Proof.
  unfold basics_api, bindM, lift.
  destruct (apis_get api (apis self)) as [a|e]; [| discriminate].
  destruct (check_base_path (base_url a) "/x-nmos" (api +:+ "/") self)
    as [[r1|e1] self1]; [| discriminate].
  destruct (check_base_path (base_url a) ("/x-nmos/" +:+ api)
              (test_version self +:+ "/") self1) as [[r2|e2] self2]; [| discriminate].
  intros Hloop.
  destruct (for_each_labels (basics_resource api) (PerEndpoint api)
              (basics_resource_labels api) _ _ _ _ Hloop) as [n Hn].
  exists n. rewrite Hn, !map_app. simpl. now rewrite <- !app_assoc.
Qed.

Lemma basics_loop_labels (names : list string) (acc : list (origin * Outcome))
    (self : Engine) (results : list (origin * Outcome)) :
  fst (for_each basics_api names acc self) = Ok results ->
  exists counts,
    length counts = length names
    /\ map fst results = map fst acc ++ concat (zip_with api_block names counts).
Proof.
  revert acc self. induction names as [|api names IH]; intros acc self; simpl.
  - intros [= <-]. exists []. split; [reflexivity |]. simpl. now rewrite app_nil_r.
  - unfold bindM. destruct (basics_api api acc self) as [[acc1|e] self1] eqn:Ea;
      [| discriminate].
    intros Hrest. destruct (basics_api_labels api acc self acc1) as [n Hn];
      [now rewrite Ea |].
    destruct (IH _ _ Hrest) as (counts & Hlen & Hc).
    exists (n :: counts). split; [simpl; now rewrite Hlen |].
    rewrite Hc, Hn. simpl. now rewrite <- !app_assoc.
Qed.

(** C1, as the code has it.  The outcomes of a run are one block per API,
    in the order of the APIs; each block is the two base-path outcomes of
    that API followed by its resource outcomes.  The list [basics] returns
    is the list of these outcomes. *)
Theorem basics_order (self : Engine) (results : list (origin * Outcome)) :
  fst (basics_labelled self) = Ok results ->
  fst (basics self) = Ok (map snd results)
  /\ exists counts,
       length counts = length (apis self)
       /\ map fst results = concat (zip_with api_block (map fst (apis self)) counts).
Proof.
  intros Hrun. split.
  - unfold basics, bindM. destruct (basics_labelled self) as [[r|e] self'];
      simpl in *; congruence.
  - destruct (basics_loop_labels (map fst (apis self)) [] self results Hrun)
      as (counts & Hlen & Hc).
    exists counts. split; [now rewrite Hlen, length_map | exact Hc].
Qed.

End RunClaims.

Lemma basics_order_witness :
  fst (@basics Demo.runtime Demo.engine) = Ok (map snd Demo.run_results)
  /\ exists counts,
       length counts = 2
       /\ map fst Demo.run_results
          = concat (zip_with api_block ["node"; "query"] counts).
Proof.
  exact (@basics_order Demo.runtime Demo.engine Demo.run_results eq_refl).
Defined.

(** C1, as the design document words it, fails on a run over two APIs: a
    resource outcome of the first API comes before the base-path outcomes of
    the second. *)
Lemma bootstraps_first_counterexample :
  fst (@basics_labelled Demo.runtime Demo.engine) = Ok Demo.run_results
  /\ map fst Demo.run_results !! 2 = Some (PerEndpoint "node")
  /\ map fst Demo.run_results !! 5 = Some (Bootstrap "query")
  /\ ~ bootstraps_first (map fst Demo.run_results).
Proof.
  split; [reflexivity |]. split; [reflexivity |]. split; [reflexivity |].
  intros Hfirst.
  pose proof (Hfirst 2 5 "node" "query" eq_refl eq_refl) as Hlt. lia.
Qed.

(** ** The version under test *)

Module PyTextFacts.
Import PyText.

Lemma endswith_append (c : ascii) (s t : string) :
  t <> EmptyString -> PyStr.endswith c (s +:+ t) = PyStr.endswith c t.
Proof.
  intros Ht. induction s as [|a s IH]; [reflexivity |].
  rewrite PyStrFacts.append_cons, PyStrFacts.endswith_cons; [exact IH |].
  destruct s; [exact Ht | discriminate].
Qed.

Lemma forallb_string_append (f : ascii -> bool) (s t : string) :
  forallb f (list_ascii_of_string (s +:+ t))
  = forallb f (list_ascii_of_string s) && forallb f (list_ascii_of_string t).
Proof.
  induction s as [|a s IH]; [reflexivity |].
  rewrite PyStrFacts.append_cons. simpl. now rewrite IH, andb_assoc.
Qed.

Lemma forallb_replicate (f : ascii -> bool) (c : ascii) (n : nat) :
  forallb f (list_ascii_of_string (PyStr.replicate n c)) = true \/ f c = false.
Proof.
  destruct (f c) eqn:Ec; [left | now right].
  induction n as [|n IH]; [reflexivity |]. simpl. now rewrite Ec.
Qed.

(** Stripping on the right keeps a property that holds of every
    character. *)
Lemma forallb_rstrip (f : ascii -> bool) (c : ascii) (s : string) :
  forallb f (list_ascii_of_string s) = true ->
  forallb f (list_ascii_of_string (PyStr.rstrip c s)) = true.
Proof.
  intros Hs. destruct (PyStrFacts.rstrip_decompose c s) as (n & Hd & _).
  rewrite Hd, forallb_string_append in Hs. now apply andb_true_iff in Hs as [Hs _].
Qed.

Lemma forallb_lstrip (f : ascii -> bool) (c : ascii) (s : string) :
  forallb f (list_ascii_of_string s) = true ->
  forallb f (list_ascii_of_string (lstrip c s)) = true.
Proof.
  induction s as [|a s IH]; [reflexivity |]. intros Hs. simpl.
  destruct (Ascii.eqb a c); [| exact Hs].
  simpl in Hs. apply andb_true_iff in Hs as [_ Hs]. now apply IH.
Qed.


Lemma split_nonempty (c : ascii) (s : string) : split c s <> [].
Proof.
  destruct s as [|a s]; [discriminate |]. simpl.
  destruct (Ascii.eqb a c); [discriminate |]. now destruct (split c s).
Qed.

(** Without the separator there is one part. *)
Lemma split_none (c : ascii) (s : string) :
  forallb (fun a => negb (Ascii.eqb a c)) (list_ascii_of_string s) = true ->
  split c s = [s].
Proof.
  induction s as [|a s IH]; [reflexivity |]. simpl. intros Hs.
  apply andb_true_iff in Hs as [Ha Hs]. apply negb_true_iff in Ha.
  now rewrite Ha, (IH Hs).
Qed.






End PyTextFacts.



(** X2.  A version without a dot never parses: with a numeric text after
    stripping [v] the minor number is missing and [IndexError] is raised. *)
Theorem parse_version_needs_minor (version : string) :
  dot_free version = true ->
  (forall parsed, _parse_version version <> Ok parsed)
  /\ (forall major,
        PyText.int (PyText.strip "v" version) = Ok major ->
        _parse_version version = Raise IndexError).
Proof.
  intros Hfree.
  assert (Hsplit : PyText.split "." (PyText.strip "v" version)
                   = [PyText.strip "v" version]).
  { apply PyTextFacts.split_none. unfold PyText.strip.
    apply PyTextFacts.forallb_rstrip, PyTextFacts.forallb_lstrip. exact Hfree. }
  unfold _parse_version. rewrite Hsplit. simpl. split.
  - intros parsed. destruct (PyText.int (PyText.strip "v" version)); discriminate.
  - intros major ->. reflexivity.
Qed.

Lemma parse_version_needs_minor_witness : _parse_version "v1" = Raise IndexError.
Proof.
  exact (proj2 (parse_version_needs_minor "v1" eq_refl) 1%Z eq_refl).
Defined.

(** ** The branch of the specification *)

Lemma first_listed_spec (branches : string) (names : list string) :
  match first_listed branches names with
  | Some branch =>
      exists before after,
        names = before ++ branch :: after
        /\ PyStr.contains ("remotes/origin/" +:+ branch) branches = true
        /\ Forall (fun other =>
                     PyStr.contains ("remotes/origin/" +:+ other) branches = false)
                  before
  | None =>
      Forall (fun other => PyStr.contains ("remotes/origin/" +:+ other) branches = false)
             names
  end.
Proof.
  induction names as [|name names IH]; simpl; [constructor |].
  destruct (PyStr.contains ("remotes/origin/" +:+ name) branches) eqn:E.
  - exists [], names. repeat split; [exact E | constructor].
  - destruct (first_listed branches names) as [branch|].
    + destruct IH as (before & after & -> & Hb & Hbefore).
      exists (name :: before), after. repeat split; [exact Hb | now constructor].
    + now constructor.
Qed.


Lemma spec_branch_candidates (test_version repo branches branch : string) :
  spec_branch test_version repo branches = Some branch ->
  In branch (branch_names test_version repo).
Proof.
  unfold spec_branch.
  pose proof (first_listed_spec branches (branch_names test_version repo)) as Hspec.
  destruct (first_listed branches (branch_names test_version repo)) as [b|];
    [| discriminate].
  destruct (String.eqb b EmptyString); [discriminate |]. intros [= <-].
  destruct Hspec as (before & after & -> & _). apply in_or_app. right. now left.
Qed.


(** X4.  A listing that shows [remotes/origin/<version>.x] selects [<version>.x],
    whatever else it shows and whatever follows that text in the listing. *)
Theorem spec_branch_prefers_x (test_version repo pre post : string) :
  spec_branch test_version repo
    (pre +:+ ("remotes/origin/" +:+ test_version +:+ ".x") +:+ post)
  = Some (test_version +:+ ".x").
Proof.
  unfold spec_branch, branch_names. cbn [app first_listed].
  assert (Hc : PyStr.contains ("remotes/origin/" +:+ test_version +:+ ".x")
                 (pre +:+ ("remotes/origin/" +:+ test_version +:+ ".x") +:+ post) = true)
    by (apply PyStrFacts.contains_iff; now exists pre, post).
  rewrite Hc.
  destruct (String.eqb (test_version +:+ ".x") EmptyString) eqn:E; [| reflexivity].
  apply String.eqb_eq in E. destruct test_version; discriminate.
Qed.

(** X5.  [master] is checked out only for a repository whose text contains
    [06]. *)
Theorem spec_branch_master_gated (test_version repo branches : string) :
  PyStr.contains "06" repo = false ->
  spec_branch test_version repo branches <> Some "master".
Proof.
  intros Hrepo Hsel.
  pose proof (spec_branch_candidates test_version repo branches "master" Hsel) as Hc.
  unfold branch_names in Hc. rewrite Hrepo in Hc.
  destruct Hc as [Hc | [Hc | []]].
  - assert (He : PyStr.endswith "x" "master" = true)
      by (rewrite <- Hc; now rewrite PyTextFacts.endswith_append).
    discriminate He.
  - assert (He : PyStr.endswith "v" "master" = true)
      by (rewrite <- Hc; now rewrite PyTextFacts.endswith_append).
    discriminate He.
Qed.

Lemma spec_branch_master_gated_witness :
  spec_branch "v1.2" "<git.Repo nmos-discovery-registration>"
    "* master   remotes/origin/master" <> Some "master".
Proof.
  exact (spec_branch_master_gated "v1.2" "<git.Repo nmos-discovery-registration>"
           "* master   remotes/origin/master" eq_refl).
Defined.

(** ** The check of a base path *)

Section BasePathFacts.
Context `{Runtime}.



(** X7.  A base-path check sends one GET to the base URL followed by the path,
    and changes neither the cache nor the configuration. *)
Theorem check_base_path_effects (base path expectation : string) (self : Engine) :
  let self' := snd (check_base_path base path expectation self) in
  sent self' = sent self ++ [("GET", base +:+ path)]
  /\ saved_entities self' = saved_entities self
  /\ apis self' = apis self
  /\ test_version self' = test_version self
  /\ omit_paths self' = omit_paths self
  /\ world self' = snd (transport "GET" (base +:+ path) (world self)).
Proof.
  unfold check_base_path, bindM, do_request, ret.
  destruct (transport "GET" (base +:+ path) (world self)) as [r w].
  destruct r as [response| | | |]; simpl; auto 10.
  destruct (negb (status_code response =? 200)%Z); simpl; auto 10.
  destruct (negb (validate_CORS "GET" response)); simpl; auto 10.
  destruct (r_json response) as [[| | | | |body|]|]; simpl; auto 10.
  destruct (list_has_str expectation body); simpl; auto 10.
Qed.


End BasePathFacts.

(** ** More on the harvest *)

Lemma harvest_entry_short (entry : json) : length (harvest_entry [] entry) <= 1.
Proof.
  destruct entry as [| | | |s| |items]; simpl; try lia.
  - destruct (PyStr.endswith "/" s); simpl; lia.
  - destruct (dict_get "id" items); simpl; lia.
Qed.

(** X9.  A body that is not a JSON list yields nothing, and saving it leaves the
    cache as it was. *)
Theorem harvest_needs_list (response : Response) :
  (forall entries, r_json response <> Some (JList entries)) ->
  harvest response = []
  /\ forall path m, save_subresources path response m = m.
Proof.
  intros Hbody.
  assert (Hh : harvest response = []).
  { unfold harvest. destruct (r_json response) as [[| | | | |entries|]|];
      try reflexivity. now destruct (Hbody entries). }
  split; [exact Hh |]. intros path m. unfold save_subresources. now rewrite Hh.
Qed.

Lemma harvest_needs_list_witness :
  save_subresources "/self"
    {| status_code := 200; headers := Demo.cors; r_json := Some (JDict [("id", JStr "abc")]) |}
    ∅ = ∅.
Proof.
  exact (proj2 (harvest_needs_list
                  {| status_code := 200; headers := Demo.cors;
                     r_json := Some (JDict [("id", JStr "abc")]) |}
                  (fun entries E => eq_ind (Some (JDict [("id", JStr "abc")]))
                                      (fun j => match j with
                                                | Some (JDict _) => True
                                                | _ => False
                                                end) I _ E))
               "/self" ∅).
Defined.

(** X10.  A list body yields at most one identifier per entry, and every
    identifier it yields is what one of its entries yields alone. *)
Theorem harvest_bounded (response : Response) (entries : list json) :
  r_json response = Some (JList entries) ->
  length (harvest response) <= length entries
  /\ forall i, In i (harvest response) ->
       exists entry, In entry entries /\ harvest_entry [] entry = [i].
Proof.
  intros Hbody. rewrite (harvest_list response entries Hbody). clear Hbody.
  induction entries as [|entry entries [IHlen IHin]]; simpl.
  - split; [lia | intros i []].
  - split.
    + rewrite length_app. pose proof (harvest_entry_short entry). lia.
    + intros i Hin. apply in_app_or in Hin as [Hin | Hin].
      * exists entry. split; [now left |].
        pose proof (harvest_entry_short entry) as Hshort.
        destruct (harvest_entry [] entry) as [|x [|y l]]; simpl in *;
          [destruct Hin | | lia].
        destruct Hin as [-> | []]. reflexivity.
      * destruct (IHin i Hin) as (e & He & Hy). exists e. split; [now right | exact Hy].
Qed.

Lemma harvest_bounded_witness :
  length (harvest {| status_code := 200; headers := Demo.cors;
                     r_json := Some Demo.listing |}) <= 4.
Proof.
  exact (proj1 (harvest_bounded
                  {| status_code := 200; headers := Demo.cors;
                     r_json := Some Demo.listing |}
                  _ eq_refl)).
Defined.

(** ** More on the key of the cache *)

Section KeyFacts.
Context `{Runtime}.

(** X11.  The key under which identifiers are looked up for
    [<collection>/{param}...] is [<collection>], with any run of slashes
    before the brace dropped; for a template without a brace it is the
    template without its trailing slashes. *)
Theorem parent_path_strips_parameter (collection rest : string) (n : nat) :
  brace_free collection = true ->
  PyStr.endswith "/" collection = false ->
  parent_path ((collection +:+ PyStr.replicate n "/") +:+ String "{" rest) = collection
  /\ parent_path (collection +:+ PyStr.replicate n "/") = collection.
Proof.
  intros Hfree Hend. split; [now apply parent_path_template |].
  unfold parent_path.
  assert (Hhead : forall s, brace_free s = true -> PyStr.split_head "{" s = s).
  { induction s as [|c s IH]; [reflexivity |]. unfold brace_free. simpl.
    intros Hs. apply andb_true_iff in Hs as [Hc Hs].
    apply negb_true_iff, orb_false_iff in Hc as [Hopen _].
    rewrite Hopen. now rewrite (IH Hs). }
  rewrite Hhead.
  - now apply PyStrFacts.rstrip_append_replicate.
  - unfold brace_free in *. rewrite PyTextFacts.forallb_string_append, Hfree. simpl.
    clear. induction n as [|n IH]; [reflexivity | exact IH].
Qed.

(** A field that is not the keyword raises [KeyError], whatever follows
    it. *)
Lemma py_format_wrong_field (pre post other name : string) (value : json) :
  brace_free pre = true ->
  keyword_name other = true ->
  other <> name ->
  py_format (pre +:+ "{" +:+ other +:+ "}" +:+ post) name value = Raise KeyError.
Proof.
  intros Hpre Hother Hne. unfold py_format.
  rewrite (format_go_text pre _ _ _ _ Hpre), PyStrFacts.append_nil_l.
  unfold keyword_name in Hother.
  apply andb_true_iff in Hother as [Hother Hchars].
  apply andb_true_iff in Hother as [Hnonempty Hdigits].
  apply negb_true_iff in Hnonempty, Hdigits.
  destruct other as [|c other]; [discriminate |].
  change ("{" +:+ String c other +:+ "}" +:+ post)
    with (String "{" (String c (other +:+ String "}" post))).
  assert (Hc : Ascii.eqb c "{" = false).
  { simpl in Hchars. apply andb_true_iff in Hchars as [Hc _].
    apply negb_true_iff, orb_false_iff in Hc as [Hc _].
    now apply orb_false_iff in Hc as [Hc _]. }
  rewrite (format_go_open c _ _ _ _ Hc).
  change (String c (other +:+ String "}" post))
    with (String c other +:+ String "}" post).
  rewrite (format_go_field (String c other) post EmptyString pre name value)
    by exact Hchars.
  rewrite PyStrFacts.append_nil_l. unfold format_field.
  rewrite Hnonempty, Hdigits.
  apply String.eqb_neq in Hne. now rewrite Hne.
Qed.

(** X12.  A resource with one parameter whose template names another parameter
    is reported NA while its key is absent from the cache; once the key
    holds an identifier the check raises [KeyError] before any request and
    leaves the engine as it was. *)
Theorem misnamed_parameter_raises (resource : Resource) (code : Z) (api : string)
    (self : Engine) (param : Param) (pre post other : string) :
  d_params (snd resource) = Some [param] ->
  fst resource = pre +:+ "{" +:+ other +:+ "}" +:+ post ->
  brace_free pre = true ->
  keyword_name other = true ->
  other <> p_name param ->
  (saved_entities self !! parent_path (fst resource) = None ->
   exists o, check_api_resource resource code api self = (Ok (Some o), self)
             /\ o_state o = NA)
  /\ (forall entity rest,
        saved_entities self !! parent_path (fst resource) = Some (entity :: rest) ->
        check_api_resource resource code api self = (Raise KeyError, self)).
Proof.
  intros Hp Ht Hpre Hother Hne. split.
  - intros Hl. eexists. split.
    + apply (check_api_resource_absent resource code api self param Hp Hl).
    + reflexivity.
  - intros entity rest Hl. unfold check_api_resource, bindM, lift.
    rewrite Hp, Hl, Ht.
    now rewrite (py_format_wrong_field pre post other (p_name param) entity Hpre Hother Hne).
Qed.

End KeyFacts.

Lemma parent_path_strips_parameter_witness :
  parent_path "/devices/{deviceId}/ports/{portId}" = "/devices"
  /\ parent_path "/devices/" = "/devices".
Proof.
  exact (@parent_path_strips_parameter "/devices" "deviceId}/ports/{portId}" 1
           eq_refl eq_refl).
Defined.

Lemma misnamed_parameter_raises_witness :
  @check_api_resource Demo.runtime
    ("/devices/{id}", Demo.get (Some [{| p_name := "deviceId" |}])) 200 "node"
    Demo.engine_with_devices
  = (Raise KeyError, Demo.engine_with_devices).
Proof.
  exact (proj2 (@misnamed_parameter_raises Demo.runtime
                  ("/devices/{id}", Demo.get (Some [{| p_name := "deviceId" |}]))
                  200 "node" Demo.engine_with_devices {| p_name := "deviceId" |}
                  "/devices/" EmptyString "id"
                  eq_refl eq_refl eq_refl eq_refl
                  (fun E => eq_ind "id" (fun s => match s with
                                                  | String "i" _ => True
                                                  | _ => False
                                                  end) I _ E))
               (JStr "abc") [JStr "xyz"] eq_refl).
Defined.

(** ** More on the check of one resource *)

Section ResourceFacts.
Context `{Runtime}.

(** The cache after the request: the harvest of a response with the
    expected status is saved under the template, and nothing else is. *)
Lemma request_and_check_saved (resource : Resource) (code : Z) (api url test : string)
    (self : Engine) :
  saved_entities (snd (request_and_check resource code api url test self))
  = match fst (transport (d_method (snd resource)) url (world self)) with
    | Sent response =>
        if (status_code response =? code)%Z
        then save_subresources (fst resource) response (saved_entities self)
        else saved_entities self
    | _ => saved_entities self
    end.
Proof.
  unfold request_and_check, bindM, do_request, do_save_subresources, lift, ret, bind.
  destruct (transport (d_method (snd resource)) url (world self)) as [r w].
  destruct r as [response| | | |]; simpl; try reflexivity.
  destruct (status_code response =? code)%Z; simpl; [| reflexivity].
  destruct (apis_get api (apis self)) as [a|e]; simpl; [| reflexivity].
  destruct (negb (truthy _)); simpl; [reflexivity |].
  destruct (check_response _ _ _) as [[[|] message]|e]; reflexivity.
Qed.

(** What comes back from the request is an outcome named [test] in state
    PASS, FAIL or MANUAL. *)
Lemma request_and_check_outcome (resource : Resource) (code : Z) (api url test : string)
    (self : Engine) (result : option Outcome) :
  fst (request_and_check resource code api url test self) = Ok result ->
  exists o, result = Some o /\ o_name o = test
            /\ (o_state o = Pass \/ o_state o = Fail \/ o_state o = Manual).
Proof.
  unfold request_and_check, bindM, do_request, do_save_subresources, lift, ret, bind.
  destruct (transport (d_method (snd resource)) url (world self)) as [r w].
  destruct r as [response| | | |]; simpl;
    try (intros [= <-]; eexists; split; [reflexivity |]; simpl; auto).
  destruct (negb (status_code response =? code)%Z); simpl;
    [intros [= <-]; eexists; split; [reflexivity |]; simpl; auto |].
  destruct (apis_get api (apis self)) as [a|e]; simpl; [| discriminate].
  destruct (negb (truthy _)); simpl;
    [intros [= <-]; eexists; split; [reflexivity |]; simpl; auto |].
  destruct (check_response _ _ _) as [[[|] message]|e]; simpl; try discriminate;
    intros [= <-]; eexists; (split; [reflexivity |]); simpl; auto.
Qed.

(** What [check_api_resource] does, by the shape of the resource and the
    state of the cache: it stops without a request, or it is the request to
    one URL. *)
Lemma check_api_resource_cases (resource : Resource) (code : Z) (api : string)
    (self : Engine) :
  (snd (check_api_resource resource code api self) = self
   /\ (fst (check_api_resource resource code api self) = Ok None
       \/ (exists e, fst (check_api_resource resource code api self) = Raise e)
       \/ exists o, fst (check_api_resource resource code api self) = Ok (Some o)
                    /\ o_state o = NA
                    /\ o_detail o = "No resources found to perform this test"))
  \/ exists url test,
       check_api_resource resource code api self
       = request_and_check resource code api url test self.
Proof.
  unfold check_api_resource, bindM, lift.
  destruct (d_params (snd resource)) as [[|param [|param' ps]]|].
  - destruct (apis_get api (apis self)) as [a|e]; [right; eauto |].
    left. split; [reflexivity |]. right. left. eauto.
  - destruct (saved_entities self !! parent_path (fst resource)) as [[|entity ids]|].
    + left. split; [reflexivity |]. right. left. eauto.
    + destruct (py_format (fst resource) (p_name param) entity) as [url_param|e];
        [| left; split; [reflexivity |]; right; left; eauto].
      destruct (apis_get api (apis self)) as [a|e]; [right; eauto |].
      left. split; [reflexivity |]. right. left. eauto.
    + left. split; [reflexivity |]. right. right. eexists. split; [reflexivity |].
      simpl. auto.
  - left. split; [reflexivity |]. now left.
  - destruct (apis_get api (apis self)) as [a|e]; [right; eauto |].
    left. split; [reflexivity |]. right. left. eauto.
Qed.

Lemma app_one_neq {A : Type} (l : list A) (x : A) : l ++ [x] <> l.
Proof.
  intros E. apply (f_equal (@length A)) in E. rewrite length_app in E. simpl in E. lia.
Qed.

(** X13.  A resource check sends at most one request.  Its outcome is never a
    WARNING; it is NA exactly when nothing was sent, and then the engine is
    as it was and the message says that no resources were found. *)
Theorem resource_check_outcome (resource : Resource) (code : Z) (api : string)
    (self : Engine) :
  let out := check_api_resource resource code api self in
  (sent (snd out) = sent self
   \/ exists url, sent (snd out) = sent self ++ [(d_method (snd resource), url)])
  /\ forall o,
       fst out = Ok (Some o) ->
       o_state o <> Warning
       /\ (o_state o = NA <-> sent (snd out) = sent self)
       /\ (o_state o = NA ->
           snd out = self /\ o_detail o = "No resources found to perform this test").
Proof.
  cbv zeta. destruct (check_api_resource_cases resource code api self)
    as [(Hself & Hres) | (url & test & Hreq)].
  - rewrite Hself. split; [now left |]. intros o Ho.
    destruct Hres as [Hres | [(e & Hres) | (o' & Hres & Hna & Hdetail)]];
      rewrite Ho in Hres; try discriminate.
    injection Hres as <-. rewrite Hna.
    split; [discriminate |]. split; [split; reflexivity |].
    intros _. split; [reflexivity | exact Hdetail].
  - rewrite Hreq. pose proof (request_and_check_sent resource code api url test self) as Hs.
    split; [right; eauto |]. intros o Ho.
    destruct (request_and_check_outcome resource code api url test self _ Ho)
      as (o' & [= <-] & _ & Hstate).
    split; [| split].
    + destruct Hstate as [-> | [-> | ->]]; discriminate.
    + split.
      * intros Hna. destruct Hstate as [E | [E | E]]; rewrite E in Hna; discriminate.
      * intros E. rewrite Hs in E. now destruct (app_one_neq _ _ E).
    + intros Hna. destruct Hstate as [E | [E | E]]; rewrite E in Hna; discriminate.
Qed.

(** X14.  For a resource without parameters, the identifiers of a response with
    the expected status are saved under the path template of the resource,
    whatever the verdict on the response then is; a transport failure or
    another status leaves the cache as it was.  For any resource, no key
    other than its template changes. *)
Theorem resource_check_harvest (resource : Resource) (code : Z) (api : string)
    (self : Engine) :
  (forall a,
     d_params (snd resource) = None \/ d_params (snd resource) = Some [] ->
     apis_get api (apis self) = Ok a ->
     saved_entities (snd (check_api_resource resource code api self))
     = match fst (transport (d_method (snd resource))
                    (PyStr.rstrip "/" (url a) +:+ fst resource) (world self)) with
       | Sent response =>
           if (status_code response =? code)%Z
           then save_subresources (fst resource) response (saved_entities self)
           else saved_entities self
       | _ => saved_entities self
       end)
  /\ forall path,
       path <> fst resource ->
       saved_entities (snd (check_api_resource resource code api self)) !! path
       = saved_entities self !! path.
Proof.
  split.
  - intros a Hp Ha.
    rewrite (check_api_resource_no_param resource code api self a Hp Ha).
    apply request_and_check_saved.
  - intros path Hne.
    destruct (check_api_resource_cases resource code api self)
      as [(Hself & _) | (url & test & Hreq)]; [now rewrite Hself |].
    rewrite Hreq, request_and_check_saved.
    destruct (fst (transport (d_method (snd resource)) url (world self)));
      try reflexivity.
    destruct (status_code r =? code)%Z; [| reflexivity].
    apply save_subresources_other. congruence.
Qed.

(** X15.  Discovery feeds resolution: when the check of a collection receives a
    response with the expected status, and the cache entry of the collection
    followed by the identifiers of that response starts with [first], then
    the next request for [<collection>/{param}<rest>] goes to the URL with
    [first] in the place of the parameter, for whichever API it is made. *)
Theorem discovered_id_is_requested (collection member : Resource) (code code' : Z)
    (api api' : string) (self : Engine) (a a' : API) (response : Response)
    (param : Param) (post : string) (first : json) (others : list json) :
  d_params (snd collection) = None \/ d_params (snd collection) = Some [] ->
  brace_free (fst collection) = true ->
  PyStr.endswith "/" (fst collection) = false ->
  apis_get api (apis self) = Ok a ->
  apis_get api' (apis self) = Ok a' ->
  fst (transport (d_method (snd collection))
         (PyStr.rstrip "/" (url a) +:+ fst collection) (world self)) = Sent response ->
  status_code response = code ->
  cached (saved_entities self) (fst collection) ++ harvest response = first :: others ->
  d_params (snd member) = Some [param] ->
  fst member = (fst collection +:+ "/") +:+ "{" +:+ p_name param +:+ "}" +:+ post ->
  brace_free post = true ->
  keyword_name (p_name param) = true ->
  let self1 := snd (check_api_resource collection code api self) in
  sent (snd (check_api_resource member code' api' self1))
  = sent self1 ++ [(d_method (snd member),
                    PyStr.rstrip "/" (url a') +:+ (fst collection +:+ "/")
                    +:+ format_value first +:+ post)].
Proof.
  intros Hp Hfree Hend Ha Ha' Hsent Hstatus Hids Hp' Ht Hpost Hname. cbv zeta.
  set (self1 := snd (check_api_resource collection code api self)).
  assert (Hapis : apis self1 = apis self)
    by apply (evolving_check_api_resource collection code api self).
  assert (Hsaved : saved_entities self1 !! fst collection = Some (first :: others)).
  { unfold self1.
    rewrite (check_api_resource_no_param collection code api self a Hp Ha),
      request_and_check_saved, Hsent, Hstatus, Z.eqb_refl.
    pose proof (save_subresources_same (fst collection) response (saved_entities self))
      as Hc.
    rewrite Hids in Hc. unfold cached in Hc.
    destruct (save_subresources (fst collection) response (saved_entities self)
              !! fst collection) as [ids|]; simpl in Hc; [now subst | discriminate]. }
  assert (Hparent : parent_path (fst member) = fst collection).
  { rewrite Ht.
    change (fst collection +:+ "/") with (fst collection +:+ PyStr.replicate 1 "/").
    change ("{" +:+ p_name param +:+ "}" +:+ post)
      with (String "{" (p_name param +:+ "}" +:+ post)).
    now apply parent_path_template. }
  rewrite (check_api_resource_one_param member code' api' self1 param first others a'
             ((fst collection +:+ "/") +:+ format_value first +:+ post)).
  - apply request_and_check_sent.
  - exact Hp'.
  - now rewrite Hparent.
  - rewrite Ht. apply py_format_one_field; [| exact Hpost | exact Hname].
    unfold brace_free in *. now rewrite PyTextFacts.forallb_string_append, Hfree.
  - now rewrite Hapis.
Qed.

(** X16.  A resource whose path is on the list of omitted paths, or whose response
    codes do not include 200, is passed over: no outcome is added and the
    engine stays as it was. *)
Theorem skipped_resources (api : string) (resource : Resource)
    (results : list (origin * Outcome)) (self : Engine) :
  existsb (String.eqb (fst resource)) (omit_paths self) = true
  \/ ~ In 200%Z (d_responses (snd resource)) ->
  basics_resource api resource results self = (Ok results, self).
Proof.
  intros Hskip. unfold basics_resource.
  induction (d_responses (snd resource)) as [|c codes IH]; [reflexivity |].
  simpl. unfold bindM at 1. unfold basics_response at 1.
  assert (Hcond : (c =? 200)%Z
                  && negb (existsb (String.eqb (fst resource)) (omit_paths self))
                  = false).
  { destruct Hskip as [-> | Hno]; [apply andb_false_r |].
    destruct (c =? 200)%Z eqn:Ec; [| reflexivity].
    apply Z.eqb_eq in Ec. subst c. destruct Hno. now left. }
  rewrite Hcond. apply IH.
  destruct Hskip as [Ho | Hno]; [now left | right].
  intros Hin. apply Hno. now right.
Qed.

End ResourceFacts.

Lemma resource_check_outcome_witness :
  sent (snd (@check_api_resource Demo.runtime Demo.device_resource 200 "node" Demo.engine))
  = sent Demo.engine.
Proof.
  exact (proj1 (proj1 (proj2 (proj2 (@resource_check_outcome Demo.runtime
                                       Demo.device_resource 200 "node" Demo.engine)
                                (Test_NA "GET /x-nmos/node/v1.2/devices/{deviceId}"
                                   "No resources found to perform this test")
                                eq_refl)))
               eq_refl).
Defined.

Lemma resource_check_harvest_witness :
  saved_entities (snd (@check_api_resource Demo.runtime Demo.devices_resource 200 "node"
                         Demo.engine))
  = {["/devices" := [JStr "abc"; JStr "xyz"; JStr "abc"]]}.
Proof.
  exact (proj1 (@resource_check_harvest Demo.runtime Demo.devices_resource 200 "node"
                  Demo.engine)
               Demo.node_api (or_intror eq_refl) eq_refl).
Defined.

Lemma discovered_id_is_requested_witness :
  sent (snd (@check_api_resource Demo.runtime Demo.device_resource 200 "query"
               (snd (@check_api_resource Demo.runtime Demo.devices_resource 200 "node"
                       Demo.engine))))
  = [("get", "http://node.example/x-nmos/node/v1.2/devices");
     ("get", "http://query.example/x-nmos/query/v1.2/devices/abc")].
Proof.
  exact (@discovered_id_is_requested Demo.runtime Demo.devices_resource
           Demo.device_resource 200 200 "node" "query" Demo.engine
           Demo.node_api Demo.query_api
           {| status_code := 200; headers := Demo.cors; r_json := Some Demo.listing |}
           {| p_name := "deviceId" |} EmptyString (JStr "abc") [JStr "xyz"; JStr "abc"]
           (or_intror eq_refl) eq_refl eq_refl eq_refl eq_refl eq_refl eq_refl eq_refl
           eq_refl eq_refl eq_refl eq_refl).
Defined.

Lemma no_200_in_errors : ~ In 200%Z [404%Z; 500%Z].
Proof. intros [E | [E | []]]; discriminate E. Qed.

Lemma skipped_resources_witness :
  @basics_resource Demo.runtime "node"
    ("/self", {| d_method := "get"; d_params := None; d_responses := [404%Z; 500%Z] |})
    [] Demo.engine
  = (Ok [], Demo.engine).
Proof.
  exact (@skipped_resources Demo.runtime "node"
           ("/self", {| d_method := "get"; d_params := None;
                        d_responses := [404%Z; 500%Z] |})
           [] Demo.engine
           (or_intror no_200_in_errors)).
Defined.

(** ** More on a whole run *)

Section RunFacts.
Context `{Runtime}.

Lemma requests_made_app (l1 l2 : list Outcome) :
  requests_made (l1 ++ l2) = requests_made l1 + requests_made l2.
Proof. unfold requests_made. now rewrite List.filter_app, length_app. Qed.

Lemma extends_by_refl (acc : list (origin * Outcome)) (self : Engine) :
  extends_by acc self acc self.
Proof.
  exists []. rewrite app_nil_r. repeat split; [unfold requests_made; simpl; lia |].
  constructor.
Qed.

Lemma extends_by_trans (a1 : list (origin * Outcome)) (s1 : Engine)
    (a2 : list (origin * Outcome)) (s2 : Engine)
    (a3 : list (origin * Outcome)) (s3 : Engine) :
  extends_by a1 s1 a2 s2 -> extends_by a2 s2 a3 s3 -> extends_by a1 s1 a3 s3.
Proof.
  intros (n1 & -> & Hs1 & Hw1) (n2 & -> & Hs2 & Hw2). exists (n1 ++ n2).
  rewrite app_assoc, map_app, requests_made_app. repeat split; [lia |].
  now apply Forall_app.
Qed.

Lemma extends_by_one (acc : list (origin * Outcome)) (self self' : Engine)
    (label : origin) (o : Outcome) :
  o_state o <> Warning ->
  length (sent self') = length (sent self) + (if requested o then 1 else 0) ->
  extends_by acc self (acc ++ [(label, o)]) self'.
Proof.
  intros Hw Hs. exists [(label, o)]. repeat split.
  - unfold requests_made. simpl. destruct (requested o); simpl; lia.
  - now constructor.
Qed.

(** What holds of every successful step of a loop holds of the loop. *)
Lemma for_each_success {A S : Type} (body : A -> S -> M S)
    (R : S -> Engine -> S -> Engine -> Prop) :
  (forall acc self, R acc self acc self) ->
  (forall a1 s1 a2 s2 a3 s3, R a1 s1 a2 s2 -> R a2 s2 a3 s3 -> R a1 s1 a3 s3) ->
  (forall x acc self acc',
     fst (body x acc self) = Ok acc' -> R acc self acc' (snd (body x acc self))) ->
  forall l acc self acc',
    fst (for_each body l acc self) = Ok acc' ->
    R acc self acc' (snd (for_each body l acc self)).
Proof.
  intros Hrefl Htrans Hbody. induction l as [|x l IH]; intros acc self acc'; simpl.
  - intros [= <-]. apply Hrefl.
  - unfold bindM. pose proof (Hbody x acc self) as Hx.
    destruct (body x acc self) as [[acc1|e] self1]; [| discriminate].
    intros Hrest. eapply Htrans; [now apply Hx | now apply IH].
Qed.

Lemma check_base_path_summary (base path expectation : string) (self : Engine) :
  exists o,
    fst (check_base_path base path expectation self) = Ok o
    /\ (o_state o = Pass \/ o_state o = Fail)
    /\ sent (snd (check_base_path base path expectation self))
       = sent self ++ [("GET", base +:+ path)].
Proof.
  unfold check_base_path, bindM, do_request, ret.
  destruct (transport "GET" (base +:+ path) (world self)) as [r w].
  destruct r as [response| | | |]; simpl; eauto.
  destruct (negb (status_code response =? 200)%Z); simpl; eauto.
  destruct (negb (validate_CORS "GET" response)); simpl; eauto.
  destruct (r_json response) as [[| | | | |body|]|]; simpl; eauto.
  destruct (list_has_str expectation body); simpl; eauto.
Qed.

Lemma basics_response_extends (api : string) (resource : Resource) (code : Z)
    (acc : list (origin * Outcome)) (self : Engine) (acc' : list (origin * Outcome)) :
  fst (basics_response api resource code acc self) = Ok acc' ->
  extends_by acc self acc' (snd (basics_response api resource code acc self)).
Proof.
  unfold basics_response.
  destruct ((code =? 200)%Z && _); [| simpl; intros [= <-]; apply extends_by_refl].
  unfold bindM.
  destruct (check_api_resource_cases resource code api self)
    as [(Hself & Hres) | (url & test & Hreq)].
  - destruct (check_api_resource resource code api self) as [[[o|]|e] self'];
      simpl in *; subst self'; try discriminate.
    + intros [= <-]. destruct Hres as [Hres | [(e & Hres) | (o' & [= <-] & Hna & _)]];
        try discriminate.
      apply extends_by_one; [rewrite Hna; discriminate |].
      unfold requested. rewrite Hna. lia.
    + intros [= <-]. apply extends_by_refl.
  - pose proof (request_and_check_sent resource code api url test self) as Hs.
    pose proof (request_and_check_outcome resource code api url test self) as Ho.
    rewrite <- Hreq in Hs, Ho.
    destruct (check_api_resource resource code api self) as [[result|e] self'];
      simpl in *; [| discriminate].
    destruct (Ho result eq_refl) as (o & -> & _ & Hstate). simpl. intros [= <-].
    apply extends_by_one.
    + destruct Hstate as [-> | [-> | ->]]; discriminate.
    + rewrite Hs, length_app. simpl. unfold requested.
      destruct Hstate as [-> | [-> | ->]]; reflexivity.
Qed.

Lemma basics_api_extends (api : string) (acc : list (origin * Outcome))
    (self : Engine) (acc' : list (origin * Outcome)) :
  fst (basics_api api acc self) = Ok acc' ->
  extends_by acc self acc' (snd (basics_api api acc self)).
Proof.
  unfold basics_api, bindM, lift.
  destruct (apis_get api (apis self)) as [a|e]; [| discriminate].
  destruct (check_base_path_summary (base_url a) "/x-nmos" (api +:+ "/") self)
    as (o1 & Ho1 & Hst1 & Hs1).
  destruct (check_base_path (base_url a) "/x-nmos" (api +:+ "/") self)
    as [[r1|e1] self1]; simpl in *; [| discriminate].
  injection Ho1 as ->.
  destruct (check_base_path_summary (base_url a) ("/x-nmos/" +:+ api)
              (test_version self +:+ "/") self1) as (o2 & Ho2 & Hst2 & Hs2).
  destruct (check_base_path (base_url a) ("/x-nmos/" +:+ api)
              (test_version self +:+ "/") self1) as [[r2|e2] self2];
    simpl in *; [| discriminate].
  injection Ho2 as ->.
  intros Hloop.
  assert (Hone : forall o s s' results,
             (o_state o = Pass \/ o_state o = Fail) ->
             length (sent s') = length (sent s) + 1 ->
             extends_by results s (results ++ [(Bootstrap api, o)]) s').
  { intros o s s' results Hst Hlen. apply extends_by_one.
    - destruct Hst as [-> | ->]; discriminate.
    - unfold requested. destruct Hst as [-> | ->]; exact Hlen. }
  eapply extends_by_trans; [apply (Hone o1 self self1 acc Hst1) |].
  { rewrite Hs1, length_app. reflexivity. }
  eapply extends_by_trans; [apply (Hone o2 self1 self2 _ Hst2) |].
  { rewrite Hs2, length_app. reflexivity. }
  apply (for_each_success (basics_resource api) extends_by extends_by_refl extends_by_trans);
    [| exact Hloop].
  intros resource results s results'. unfold basics_resource.
  apply (for_each_success (basics_response api resource) extends_by
           extends_by_refl extends_by_trans).
  intros code. apply basics_response_extends.
Qed.

(** X17.  In a run that returns, the requests sent are as many as the outcomes
    that are not NA, and no outcome is a WARNING. *)
Theorem run_requests_match_outcomes (self : Engine) (outs : list Outcome) :
  fst (basics self) = Ok outs ->
  length (sent (snd (basics self))) = length (sent self) + requests_made outs
  /\ Forall (fun o => o_state o <> Warning) outs.
Proof.
  unfold basics, bindM, ret.
  pose proof (for_each_success basics_api extends_by extends_by_refl extends_by_trans
                basics_api_extends (map fst (apis self)) [] self) as Hrun.
  fold (basics_labelled self) in Hrun.
  destruct (basics_labelled self) as [[results|e] self']; simpl in *; [| discriminate].
  intros [= <-]. destruct (Hrun results eq_refl) as (new & -> & Hlen & Hw).
  simpl. split; [exact Hlen |].
  apply Forall_forall. intros o Hin. apply list_elem_of_In, in_map_iff in Hin
    as ((label & o') & <- & Hin).
  rewrite Forall_forall in Hw. apply (Hw (label, o')). now apply list_elem_of_In.
Qed.

End RunFacts.

Lemma run_requests_match_outcomes_witness :
  length (sent (snd (@basics Demo.runtime Demo.engine))) = 8.
Proof.
  exact (proj1 (@run_requests_match_outcomes Demo.runtime Demo.engine
                  (map snd Demo.run_results) eq_refl)).
Defined.

(** ** When a run returns *)

Section ReturnFacts.
Context `{Runtime}.










End ReturnFacts.




(** ** The verdict on a resource *)

Section VerdictFacts.
Context `{Runtime}.

(** What the verdict of [check_response] says about the response. *)
Lemma check_response_cases (schema : json) (method : string)
    (response : Response) :
  match check_response schema method response with
  | Ok (true, _) =>
      validate_CORS method response = true
      /\ exists body, r_json response = Some body
                      /\ jsonschema_validate body schema = Valid
  | Ok (false, _) =>
      validate_CORS method response = false
      \/ r_json response = None
      \/ exists body, r_json response = Some body
                      /\ jsonschema_validate body schema = ValidationError
  | Raise _ => True
  end.
Proof.
  unfold check_response.
  destruct (validate_CORS method response); simpl; [| now left].
  destruct (r_json response) as [body|]; [| right; now left].
  destruct (jsonschema_validate body schema) eqn:Ev; [| | exact I].
  - split; [reflexivity |]. exists body. auto.
  - right. right. exists body. auto.
Qed.

Lemma request_and_check_verdict (resource : Resource) (code : Z) (api url test : string)
    (self : Engine) (a : API) (o : Outcome) :
  apis_get api (apis self) = Ok a ->
  fst (request_and_check resource code api url test self) = Ok (Some o) ->
  (o_state o = Pass <->
   exists response body,
     fst (transport (d_method (snd resource)) url (world self)) = Sent response
     /\ status_code response = code
     /\ truthy (get_schema a (d_method (snd resource)) (fst resource) code) = true
     /\ validate_CORS (d_method (snd resource)) response = true
     /\ r_json response = Some body
     /\ jsonschema_validate body
          (get_schema a (d_method (snd resource)) (fst resource) code) = Valid)
  /\ (o_state o = Manual <->
      exists response,
        fst (transport (d_method (snd resource)) url (world self)) = Sent response
        /\ status_code response = code
        /\ truthy (get_schema a (d_method (snd resource)) (fst resource) code) = false).
Proof.
  intros Ha.
  unfold request_and_check, bindM, do_request, do_save_subresources, lift, ret, bind.
  destruct (transport (d_method (snd resource)) url (world self)) as [r w].
  destruct r as [response| | | |]; simpl;
    try (intros [= <-]; simpl; split;
         (split; [discriminate |]); [intros (r' & b & E & _) | intros (r' & E & _)];
         discriminate E).
  destruct (status_code response =? code)%Z eqn:Es; simpl.
  2: { apply Z.eqb_neq in Es. intros [= <-]. simpl.
       split; (split; [discriminate |]).
       - intros (r' & b & [= <-] & Hst & _). congruence.
       - intros (r' & [= <-] & Hst & _). congruence. }
  apply Z.eqb_eq in Es. rewrite Ha. simpl. rewrite Es.
  set (schema := get_schema a (d_method (snd resource)) (fst resource) code).
  destruct (truthy schema) eqn:Et; simpl.
  2: { intros [= <-]. simpl. split.
       - split; [discriminate |]. intros (r' & b & _ & _ & Ht & _). congruence.
       - split; [| reflexivity]. intros _. exists response. auto. }
  pose proof (check_response_cases schema (d_method (snd resource)) response)
    as Hcases.
  destruct (check_response schema (d_method (snd resource)) response)
    as [[valid message]|e]; [| discriminate].
  simpl. destruct valid; intros [= <-]; simpl.
  - split.
    + split; [| reflexivity]. intros _.
      destruct Hcases as (Hc & body & Hb & Hv). exists response, body. auto 10.
    + split; [discriminate |]. intros (r' & _ & _ & Ht). congruence.
  - split.
    + split; [discriminate |].
      intros (r' & body & [= <-] & _ & _ & Hc & Hb & Hv).
      destruct Hcases as [Hc' | [Hb' | (b' & Hb' & Hv')]]; congruence.
    + split; [discriminate |]. intros (r' & _ & _ & Ht). congruence.
Qed.

(** X19.  The check of a resource without parameters ends in PASS exactly when the
    transport answered with the expected status, a schema was found, the
    CORS headers are valid and the body is JSON that the validator accepts;
    it ends in MANUAL exactly when the status is the expected one and no
    schema was found. *)
Theorem resource_check_verdict (resource : Resource) (code : Z) (api : string)
    (self : Engine) (a : API) (o : Outcome) :
  d_params (snd resource) = None \/ d_params (snd resource) = Some [] ->
  apis_get api (apis self) = Ok a ->
  fst (check_api_resource resource code api self) = Ok (Some o) ->
  let method := d_method (snd resource) in
  let target := PyStr.rstrip "/" (url a) +:+ fst resource in
  let schema := get_schema a method (fst resource) code in
  (o_state o = Pass <->
   exists response body,
     fst (transport method target (world self)) = Sent response
     /\ status_code response = code
     /\ truthy schema = true
     /\ validate_CORS method response = true
     /\ r_json response = Some body
     /\ jsonschema_validate body schema = Valid)
  /\ (o_state o = Manual <->
      exists response,
        fst (transport method target (world self)) = Sent response
        /\ status_code response = code
        /\ truthy schema = false).
Proof.
  intros Hp Ha. rewrite (check_api_resource_no_param resource code api self a Hp Ha).
  cbv zeta. now apply request_and_check_verdict.
Qed.

End VerdictFacts.

Lemma resource_check_verdict_witness :
  Pass = Pass <->
  exists response body,
    fst (Demo.serve "get" "http://node.example/x-nmos/node/v1.2/self" 0) = Sent response
    /\ status_code response = 200%Z
    /\ truthy Demo.schema = true
    /\ validate_CORS "get" response = true
    /\ r_json response = Some body
    /\ Valid = Valid.
Proof.
  exact (proj1 (@resource_check_verdict Demo.runtime Demo.self_resource 200 "node"
                  Demo.engine Demo.node_api (Test_PASS "GET /x-nmos/node/v1.2/self")
                  (or_introl eq_refl) eq_refl eq_refl)).
Defined.
